(** * Darjeeling live hazard map: scoring and data-gathering pipeline

    A shallow embedding of [hazard-map-darj.py]: the hazard heuristics
    ([pm25_to_category], [compute_landslide_score], [rainfall_scale]), the
    river probe ([fetch_teesta_level]) and the per-point aggregation
    ([gather_bubble_data]).

    Modelling conventions.
    - A Python number (int or finite float) is a rational [Q]; arithmetic
      and comparisons are exact, decimal literals denote their decimal
      value, and [round(x, 1)] is rounding to one decimal, ties to even.
      Binary64 rounding error, infinities and NaN are outside this model,
      and so are the inputs on which [float] gives them; module [Binary64]
      has the scorer on IEEE numbers, and the examples are run on it as
      well.
    - [None] where the code can hold it is the [None] of an [option].
    - A decoded JSON document is a [json] tree; indexing, [.get], [len],
      [float] and truthiness follow Python's rules on the decoded value.
    - Strings are ASCII; [str.lower] lowers the letters A-Z.
    - A raised exception is an [Err] result carrying the exception class
      and its message; [try]/[except] is a match on the result.
    - The network and the clock are an oracle [World]; the requests made
      and the clock reads are recorded in an explicit [state]. *)

From Stdlib Require Import QArith Qround Lqa ZArith Lia Bool List String Ascii.
From Stdlib Require Import DecimalString.
From Stdlib Require Floats.
Import ListNotations.

Open Scope string_scope.
Open Scope Q_scope.

(** ** Python numbers *)

Module PyNum.

(** [a < b] on numbers, as a boolean. *)
Definition ltb (a b : Q) : bool := negb (Qle_bool b a).

(** [a <= b]. *)
Definition leb (a b : Q) : bool := Qle_bool a b.

(** [a >= b]. *)
Definition geb (a b : Q) : bool := Qle_bool b a.

(** [a > b]. *)
Definition gtb (a b : Q) : bool := negb (Qle_bool a b).

(** Truth value of a number: nonzero. *)
Definition truthy (a : Q) : bool := negb (Qeq_bool a 0).

(** [max(a, b)]: the first argument unless the second is greater. *)
Definition max (a b : Q) : Q := if gtb b a then b else a.

(** [min(a, b)]: the first argument unless the second is smaller. *)
Definition min (a b : Q) : Q := if ltb b a then b else a.

(** Nearest integer, ties to the even neighbour. *)
Definition round_half_even (x : Q) : Z :=
  let f := Qfloor x in
  match Qcompare (x - inject_Z f) (1 # 2) with
  | Lt => f
  | Gt => (f + 1)%Z
  | Eq => if Z.even f then f else (f + 1)%Z
  end.

(** [round(x, 1)]: the nearest multiple of one tenth, ties to even,
    kept in lowest terms. *)
Definition round1 (x : Q) : Q := Qred (Qmake (round_half_even (x * 10)) 10).

End PyNum.

(** ** Exceptions *)

Inductive exn_class : Type :=
| KeyError | IndexError | TypeError | ValueError | AttributeError
| RequestException | HTTPError | JSONDecodeError.

(** An exception: its class and the text [str(e)] gives. *)
Record exn : Type := Raise { exn_cls : exn_class; exn_msg : string }.

Definition str_exn (e : exn) : string := exn_msg e.

Inductive result (A : Type) : Type :=
| Ok (a : A)
| Err (e : exn).
Arguments Ok {A} a.
Arguments Err {A} e.

Definition rbind {A B} (r : result A) (k : A -> result B) : result B :=
  match r with
  | Ok a => k a
  | Err e => Err e
  end.

Declare Scope py_scope.
Delimit Scope py_scope with py.
Notation "x <- c ;; k" := (rbind c (fun x => k))
  (at level 61, c at next level, right associativity) : py_scope.

(** ** Hazard scoring *)

(** [pm25_to_category(pm25)], lines 81-89. *)
Definition pm25_to_category (pm25 : option Q) : string :=
  match pm25 with
  | None => "N/A"
  | Some v =>
      if PyNum.leb v 12 then "Good"
      else if PyNum.leb v 35.4 then "Moderate"
      else if PyNum.leb v 55.4 then "Unhealthy for Sensitive Groups"
      else if PyNum.leb v 150.4 then "Unhealthy"
      else if PyNum.leb v 250.4 then "Very Unhealthy"
      else "Hazardous"
  end.

(** The label chain of [compute_landslide_score], lines 161-164. *)
Definition label_of_score (score : Q) : string :=
  if PyNum.geb score 85 then "confirm 99%"
  else if PyNum.geb score 60 then "high"
  else if PyNum.geb score 35 then "mid"
  else "no".

(** Line 155: [if hum: score += max(0, hum - 60) * 0.8]. *)
Definition add_humidity (score : Q) (hum : option Q) : Q :=
  match hum with
  | None => score
  | Some h =>
      if PyNum.truthy h then score + PyNum.max 0 (h - 60) * 0.8 else score
  end.

(** Line 156 on a number:
    [if pres_drop_3h > 0: score += min(30, pres_drop_3h * 8)]. *)
Definition pressure_added (score p : Q) : Q :=
  if PyNum.gtb p 0 then score + PyNum.min 30 (p * 8) else score.

(** Line 156; comparing [None] with [0] raises. *)
Definition add_pressure (score : Q) (pres_drop_3h : option Q) : result Q :=
  match pres_drop_3h with
  | None =>
      Err (Raise TypeError
             "'>' not supported between instances of 'NoneType' and 'int'")
  | Some p => Ok (pressure_added score p)
  end.

(** Lines 157-158: the elevation term, then the clamp to 0..100. *)
Definition add_elevation (score elev_m : Q) : Q :=
  score + PyNum.min 15 ((elev_m - 500) / 100).

Definition clamp_score (score : Q) : Q := PyNum.max 0 (PyNum.min 100 score).

(** The score before rounding, lines 154-158. *)
Definition raw_landslide_score (hum pres_drop_3h : option Q) (elev_m : Q)
  : result Q :=
  (let score := 0 in
   let score := add_humidity score hum in
   score <- add_pressure score pres_drop_3h ;;
   let score := add_elevation score elev_m in
   Ok (clamp_score score))%py.

(** [compute_landslide_score(hum, pres_drop_3h, elev_m)], lines 152-165. *)
Definition compute_landslide_score (hum pres_drop_3h : option Q) (elev_m : Q)
  : result (Q * string) :=
  (score <- raw_landslide_score hum pres_drop_3h elev_m ;;
   Ok (PyNum.round1 score, label_of_score score))%py.

(** The default of the parameter [elev_m]. *)
Definition default_elev_m : Q := 2000.

(** [rainfall_scale(mm)], lines 167-172. *)
Definition rainfall_scale (mm : Q) : string :=
  if PyNum.ltb mm 0.2 then "No"
  else if PyNum.ltb mm 5 then "Mid"
  else if PyNum.ltb mm 20 then "High"
  else "Confirm 99%".

(** ** The scorer on binary64 numbers

    The same functions with Python's floats as IEEE binary64 numbers, to
    run the rational model's examples on the numbers the program computes
    with. A decimal literal is the nearest binary64 number. *)

Module Binary64.

Import Floats.
#[local] Set Warnings "-inexact-float".
#[local] Open Scope float_scope.

(** [max(a, b)] and [min(a, b)]: the first argument unless the second is
    greater, respectively smaller. *)
Definition max (a b : float) : float := if PrimFloat.ltb a b then b else a.

Definition min (a b : float) : float := if PrimFloat.ltb b a then b else a.

(** Truth value: every number but zero (NaN included) is true. *)
Definition truthy (a : float) : bool := negb (PrimFloat.eqb a 0).

(** The exact value of a finite binary64 number. *)
Definition exact (a : float) : option Q :=
  match FloatOps.Prim2SF a with
  | SpecFloat.S754_zero _ => Some 0%Q
  | SpecFloat.S754_finite sign m e =>
      Some (inject_Z (if sign then Z.neg m else Z.pos m) * Qpower 2 e)%Q
  | _ => None
  end.

(** [round(a, 1)], as the decimal it is the nearest binary64 number to. *)
Definition round1 (a : float) : option Q := option_map PyNum.round1 (exact a).

Definition pm25_to_category (pm25 : option float) : string :=
  match pm25 with
  | None => "N/A"
  | Some v =>
      if PrimFloat.leb v 12 then "Good"
      else if PrimFloat.leb v 35.4 then "Moderate"
      else if PrimFloat.leb v 55.4 then "Unhealthy for Sensitive Groups"
      else if PrimFloat.leb v 150.4 then "Unhealthy"
      else if PrimFloat.leb v 250.4 then "Very Unhealthy"
      else "Hazardous"
  end.

Definition label_of_score (score : float) : string :=
  if PrimFloat.leb 85 score then "confirm 99%"
  else if PrimFloat.leb 60 score then "high"
  else if PrimFloat.leb 35 score then "mid"
  else "no".

Definition raw_landslide_score (hum pres_drop_3h : option float)
    (elev_m : float) : result float :=
  let score := 0 in
  let score :=
    match hum with
    | Some h => if truthy h then score + max 0 (h - 60) * 0.8 else score
    | None => score
    end in
  match pres_drop_3h with
  | None =>
      Err (Raise TypeError
             "'>' not supported between instances of 'NoneType' and 'int'")
  | Some p =>
      let score :=
        if PrimFloat.ltb 0 p then score + min 30 (p * 8) else score in
      let score := score + min 15 ((elev_m - 500) / 100) in
      Ok (max 0 (min 100 score))
  end.

Definition compute_landslide_score (hum pres_drop_3h : option float)
    (elev_m : float) : result (option Q * string) :=
  match raw_landslide_score hum pres_drop_3h elev_m with
  | Ok score => Ok (round1 score, label_of_score score)
  | Err e => Err e
  end.

Definition rainfall_scale (mm : float) : string :=
  if PrimFloat.ltb mm 0.2 then "No"
  else if PrimFloat.ltb mm 5 then "Mid"
  else if PrimFloat.ltb mm 20 then "High"
  else "Confirm 99%".

Definition teesta_status (val : float) : string :=
  if PrimFloat.ltb 400 val then "FLOOD WARNING"
  else if PrimFloat.ltb 300 val then "HIGH"
  else if PrimFloat.ltb val 100 then "LOW"
  else "NORMAL".

Definition pressure_drop (pres_prev : option float) (pres : float) : float :=
  match pres_prev with
  | Some prev => if truthy prev then prev - pres else 0
  | None => 0
  end.

End Binary64.

(** ** Strings *)

Module PyStr.

(** One character of [str.lower()]. *)
Definition lower_char (c : ascii) : ascii :=
  let n := nat_of_ascii c in
  if (65 <=? n)%nat && (n <=? 90)%nat then ascii_of_nat (n + 32) else c.

(** [s.lower()]. *)
Fixpoint lower (s : string) : string :=
  match s with
  | EmptyString => EmptyString
  | String c s' => String (lower_char c) (lower s')
  end.

(** [s.startswith(p)]. *)
Fixpoint startswith (p s : string) : bool :=
  match p, s with
  | EmptyString, _ => true
  | String a p', String b s' => Ascii.eqb a b && startswith p' s'
  | String _ _, EmptyString => false
  end.

(** [s.find(p)]: the first position where [p] occurs in [s]. *)
Fixpoint find (p s : string) : option nat :=
  if startswith p s then Some 0%nat
  else match s with
       | EmptyString => None
       | String _ s' => option_map S (find p s')
       end.

(** [p in s]. *)
Definition contains (p s : string) : bool :=
  match find p s with Some _ => true | None => false end.

(** [str(n)] for a natural number. *)
Definition of_nat (n : nat) : string :=
  DecimalString.NilZero.string_of_uint (Nat.to_uint n).

End PyStr.

(** ** Decoded JSON values *)

#[local] Set Warnings "-register-all".

Inductive json : Type :=
| JNull
| JBool (b : bool)
| JNum (q : Q)
| JStr (s : string)
| JArr (l : list json)
| JObj (m : list (string * json)).

Definition raise {A} (c : exn_class) (msg : string) : result A :=
  Err (Raise c msg).

Module Json.

(** The value stored under a key of a dict, if any. *)
Fixpoint lookup (k : string) (m : list (string * json)) : option json :=
  match m with
  | [] => None
  | (k', v) :: m' => if String.eqb k' k then Some v else lookup k m'
  end.

(** Python's name of the type of a value, for the text of error messages
    (a number is named as a float; the texts are CPython 3.11's and no
    property below depends on them). *)
Definition type_name (v : json) : string :=
  match v with
  | JNull => "NoneType"
  | JBool _ => "bool"
  | JNum _ => "float"
  | JStr _ => "str"
  | JArr _ => "list"
  | JObj _ => "dict"
  end.

(** Truth value: [None], [False], zero and empty containers are false. *)
Definition truthy (v : json) : bool :=
  match v with
  | JNull => false
  | JBool b => b
  | JNum q => PyNum.truthy q
  | JStr s => negb (String.eqb s "")
  | JArr l => match l with [] => false | _ => true end
  | JObj m => match m with [] => false | _ => true end
  end.

Definition not_subscriptable {A} (v : json) : result A :=
  raise TypeError ("'" ++ type_name v ++ "' object is not subscriptable").

Definition no_attribute {A} (v : json) (name : string) : result A :=
  raise AttributeError
    ("'" ++ type_name v ++ "' object has no attribute '" ++ name ++ "'").

(** [v[k]] for a string key [k]. *)
Definition getitem_key (v : json) (k : string) : result json :=
  match v with
  | JObj m =>
      match lookup k m with
      | Some x => Ok x
      | None => raise KeyError ("'" ++ k ++ "'")
      end
  | JArr _ =>
      raise TypeError "list indices must be integers or slices, not str"
  | JStr _ => raise TypeError "string indices must be integers, not 'str'"
  | _ => not_subscriptable v
  end.

(** [v[i]] for an index [i >= 0]. *)
Definition getitem_idx (v : json) (i : nat) : result json :=
  match v with
  | JArr l =>
      match nth_error l i with
      | Some x => Ok x
      | None => raise IndexError "list index out of range"
      end
  | JStr s =>
      match String.get i s with
      | Some c => Ok (JStr (String c EmptyString))
      | None => raise IndexError "string index out of range"
      end
  | JObj _ => raise KeyError (PyStr.of_nat i)
  | _ => not_subscriptable v
  end.

(** [len(v)]. *)
Definition len (v : json) : result nat :=
  match v with
  | JArr l => Ok (List.length l)
  | JStr s => Ok (String.length s)
  | JObj m => Ok (List.length m)
  | _ => raise TypeError ("object of type '" ++ type_name v ++ "' has no len()")
  end.

(** [v.get(k)]. *)
Definition get (v : json) (k : string) : result json :=
  match v with
  | JObj m => Ok (match lookup k m with Some x => x | None => JNull end)
  | _ => no_attribute v "get"
  end.

(** Position of the first element of a list equal to the string [key]. *)
Fixpoint index_of (key : string) (l : list json) : option nat :=
  match l with
  | [] => None
  | x :: l' =>
      match x with
      | JStr s => if String.eqb s key then Some 0%nat
                  else option_map S (index_of key l')
      | _ => option_map S (index_of key l')
      end
  end.

(** [v.index(key)] for a string [key]. *)
Definition index (v : json) (key : string) : result nat :=
  match v with
  | JArr l =>
      match index_of key l with
      | Some i => Ok i
      | None => raise ValueError ("'" ++ key ++ "' is not in list")
      end
  | JStr s =>
      match PyStr.find key s with
      | Some i => Ok i
      | None => raise ValueError "substring not found"
      end
  | _ => no_attribute v "index"
  end.

End Json.

Section Conversion.

(** [float(s)] on a string: the number [s] spells when it spells a finite
    one, [None] when [float] raises [ValueError]. The numbers of this
    development are the finite ones. A string for which [float] returns a
    NaN or an infinity ("nan", "inf", "1e999") has neither answer, and an
    integer too large for a float, on which [float] raises
    [OverflowError], is no [JNum]: runs in which such a value reaches
    [float] are not described by this model, and nothing below is claimed
    of them. *)
Variable float_of_str : string -> option Q.

(** [float(v)]. *)
Definition py_float (v : json) : result Q :=
  match v with
  | JNum q => Ok q
  | JBool b => Ok (if b then 1 else 0)
  | JStr s =>
      match float_of_str s with
      | Some q => Ok q
      | None => raise ValueError ("could not convert string to float: '" ++ s ++ "'")
      end
  | _ =>
      raise TypeError
        ("float() argument must be a string or a real number, not '"
           ++ Json.type_name v ++ "'")
  end.

End Conversion.

(** ** The outside world: requests, responses, clock *)

Inductive param : Type :=
| ParamStr (s : string)
| ParamNum (q : Q).

(** A GET request: the URL and the query parameters. *)
Record request : Type := Get {
  req_url : string;
  req_params : list (string * param)
}.

(** What the code reads from a response object: [r.status_code], [r.text]
    and the outcome of [r.json()]. *)
Record response : Type := Response {
  status_code : Z;
  text : string;
  json_body : result json
}.

(** The oracle: [net n req] is the outcome of [requests.get] for [req]
    when [n] requests were made before it (an [Err] when the call raises);
    [clock n] is the current hour, formatted ["%Y-%m-%dT%H:00"], at the
    [n]-th reading of the clock. *)
Record World : Type := {
  net : nat -> request -> result response;
  clock : nat -> string
}.

(** What a run has done so far. *)
Record state : Type := State {
  requests : list request;
  clock_reads : nat
}.

Definition initial_state : state := State [] 0.

(** Computations that read the world, update the state and may raise. *)
Definition M (A : Type) : Type := state -> result A * state.

Definition ret {A} (a : A) : M A := fun st => (Ok a, st).

Definition bind {A B} (c : M A) (k : A -> M B) : M B :=
  fun st =>
    match c st with
    | (Ok a, st') => k a st'
    | (Err e, st') => (Err e, st')
    end.

(** A pure step that may raise. *)
Definition lift {A} (r : result A) : M A := fun st => (r, st).

(** [try: body  except Exception as e: handler(e)]. *)
Definition try_except {A} (body : M A) (handler : exn -> M A) : M A :=
  fun st =>
    match body st with
    | (Ok a, st') => (Ok a, st')
    | (Err e, st') => handler e st'
    end.

Declare Scope io_scope.
Delimit Scope io_scope with io.
Notation "x <- c ;; k" := (bind c (fun x => k))
  (at level 61, c at next level, right associativity) : io_scope.
Notation "' pat <- c ;; k" := (bind c (fun x => match x with pat => k end))
  (at level 61, pat pattern, c at next level, right associativity) : io_scope.

(** [requests.get(url, params=...)]. *)
Definition requests_get (W : World) (req : request) : M response :=
  fun st =>
    (net W (List.length (requests st)) req,
     State (requests st ++ [req]) (clock_reads st)).

(** [datetime.now(tz).strftime("%Y-%m-%dT%H:00")]. *)
Definition now_hour_key (W : World) : M string :=
  fun st =>
    (Ok (clock W (clock_reads st)), State (requests st) (S (clock_reads st))).

(** [r.raise_for_status()]: an [HTTPError] for a status from 400 to 599
    (its text abridged). *)
Definition raise_for_status (r : response) : result unit :=
  if ((400 <=? status_code r) && (status_code r <? 600))%Z
  then raise HTTPError "HTTP error status"
  else Ok tt.

(** ** Configuration *)

Definition BUBBLES : list (string * Q * Q) :=
  [ ("Chowrasta / Mall", 27.0359, 88.2626);
    ("Ghoom", 27.0470, 88.2632);
    ("Lebong", 27.0161, 88.2536);
    ("Sonada", 26.9607, 88.2960);
    ("Jorebungalow", 27.0260, 88.2714);
    ("Teesta Bazaar", 27.1919, 88.5168);
    ("Tiger Hill", 27.0195, 88.2430);
    ("Kurseong", 26.8820, 88.2774);
    ("Happy Valley", 27.0448, 88.2792);
    ("North Point", 27.0613, 88.2715);
    ("Darjeeling Zoo", 27.0423, 88.2767);
    ("Cart Road Area", 27.0300, 88.2800);
    ("Glenary's / Observatory", 27.0350, 88.2640);
    ("Batasia Loop", 27.0465, 88.2588) ].

Definition OPEN_METEO_WEATHER : string :=
  "https://api.open-meteo.com/v1/forecast".

Definition OPEN_METEO_AQ : string :=
  "https://air-quality-api.open-meteo.com/v1/air-quality".

Definition TEESTA_THINGSPEAK : string :=
  "https://api.thingspeak.com/channels/1231845/feeds.json?results=1".

Definition CWC_FFS : string := "https://ffs.india-water.gov.in/".

(** ** API fetching *)

(** [fetch_open_meteo_weather(lat, lon)], lines 93-104. *)
Definition fetch_open_meteo_weather (W : World) (lat lon : Q) : M json :=
  (let params :=
     [ ("latitude", ParamNum lat);
       ("longitude", ParamNum lon);
       ("hourly",
        ParamStr "temperature_2m,relativehumidity_2m,precipitation,pressure_msl");
       ("current_weather", ParamStr "true");
       ("timezone", ParamStr "Asia/Kolkata") ] in
   r <- requests_get W (Get OPEN_METEO_WEATHER params) ;;
   _ <- lift (raise_for_status r) ;;
   lift (json_body r))%io.

(** [fetch_open_meteo_aq(lat, lon)], lines 106-116. *)
Definition fetch_open_meteo_aq (W : World) (lat lon : Q) : M json :=
  (let params :=
     [ ("latitude", ParamNum lat);
       ("longitude", ParamNum lon);
       ("hourly", ParamStr "pm10,pm2_5,carbon_monoxide,nitrogen_dioxide,ozone");
       ("timezone", ParamStr "Asia/Kolkata") ] in
   r <- requests_get W (Get OPEN_METEO_AQ params) ;;
   _ <- lift (raise_for_status r) ;;
   lift (json_body r))%io.

(** The tuple [fetch_teesta_level] returns: value, unit label, status. *)
Definition river_reading : Type := option Q * option string * string.

(** The status chain of lines 132-135. *)
Definition teesta_status (val : Q) : string :=
  if PyNum.gtb val 400 then "FLOOD WARNING"
  else if PyNum.gtb val 300 then "HIGH"
  else if PyNum.ltb val 100 then "LOW"
  else "NORMAL".

(** ** Data gathering *)

(** One element of the list [gather_bubble_data] returns: the dict's keys
    as fields; [error] is [None] when the dict has no ["error"] key. *)
Record entry : Type := Entry {
  name : string;
  lat : Q;
  lon : Q;
  temp : option Q;
  humid : option Q;
  pressure : option Q;
  precip_now : Q;
  precip_next1 : Q;
  pressure_drop_3h : Q;
  landslide_score : Q;
  landslide_label : string;
  pm25 : option Q;
  pm10 : option Q;
  aqi_category : string;
  error : option string
}.

(** The dict of the [except] branch, lines 228-237. *)
Definition placeholder (name : string) (lat lon : Q) (msg : string) : entry :=
  {| name := name; lat := lat; lon := lon;
     temp := None; humid := None; pressure := None;
     precip_now := 0; precip_next1 := 0;
     pressure_drop_3h := 0;
     landslide_score := 0; landslide_label := "no";
     pm25 := None; pm10 := None;
     aqi_category := "N/A";
     error := Some msg |}.

(** Line 201: [(pres_prev - pres) if pres_prev else 0]. *)
Definition pressure_drop (pres_prev : option Q) (pres : Q) : Q :=
  match pres_prev with
  | Some prev => if PyNum.truthy prev then prev - pres else 0
  | None => 0
  end.

Section Pipeline.

Variable float_of_str : string -> option Q.
Variable W : World.

(** The body of the first [try] of [fetch_teesta_level], lines 126-136:
    [Some] reading when it reaches the [return], [None] when it falls
    out of the [if]s. *)
Definition teesta_primary : M (option river_reading) :=
  (r <- requests_get W (Get TEESTA_THINGSPEAK []) ;;
   if (status_code r =? 200)%Z then
     j <- lift (json_body r) ;;
     feeds <- lift (Json.get j "feeds") ;;
     if Json.truthy feeds then
       field1 <- lift (f <- Json.getitem_key j "feeds" ;;
                       f0 <- Json.getitem_idx f 0 ;;
                       Json.get f0 "field1")%py ;;
       if Json.truthy field1 then
         val <- lift (f <- Json.getitem_key j "feeds" ;;
                      f0 <- Json.getitem_idx f 0 ;;
                      x <- Json.getitem_key f0 "field1" ;;
                      py_float float_of_str x)%py ;;
         ret (Some (Some val, Some "cm (ThingSpeak)", teesta_status val))
       else ret None
     else ret None
   else ret None)%io.

(** The body of the second [try], lines 142-144. *)
Definition teesta_secondary : M (option river_reading) :=
  (r <- requests_get W (Get CWC_FFS []) ;;
   if PyStr.contains "teesta" (PyStr.lower (text r))
   then ret (Some (None, Some "CWC FFS mention", "SEE_CWC"))
   else ret None)%io.

(** [fetch_teesta_level()], lines 118-148. *)
Definition fetch_teesta_level : M river_reading :=
  (first <- try_except teesta_primary (fun _ => ret None) ;;
   match first with
   | Some reading => ret reading
   | None =>
       second <- try_except teesta_secondary (fun _ => ret None) ;;
       match second with
       | Some reading => ret reading
       | None => ret (None, None, "NO_PUBLIC_RIVER_DATA")
       end
   end)%io.

(** [float(hourly[key][i])]. *)
Definition series_at (hourly : json) (key : string) (i : nat) : result Q :=
  (series <- Json.getitem_key hourly key ;;
   x <- Json.getitem_idx series i ;;
   py_float float_of_str x)%py.

(** Lines 189-192: the index of the current hour, 0 when the lookup
    raises. *)
Definition hour_index (hourly : json) (now_key : string) : nat :=
  match (times <- Json.getitem_key hourly "time" ;;
         Json.index times now_key)%py with
  | Ok i => i
  | Err _ => 0%nat
  end.

(** Line 196. *)
Definition next_hour_precip (hourly : json) (idx : nat) : result Q :=
  (series <- Json.getitem_key hourly "precipitation" ;;
   n <- Json.len series ;;
   if (idx + 1 <? n)%nat then series_at hourly "precipitation" (idx + 1)
   else Ok 0)%py.

(** Line 200. *)
Definition previous_pressure (hourly : json) (idx : nat)
  : result (option Q) :=
  (if (3 <=? idx)%nat
   then (p <- series_at hourly "pressure_msl" (idx - 3) ;; Ok (Some p))
   else Ok None)%py.

(** The body of the inner [try] of lines 204-209. *)
Definition air_quality (lat lon : Q) (now_key : string)
  : M (option Q * option Q) :=
  (aq <- fetch_open_meteo_aq W lat lon ;;
   ah <- lift (Json.getitem_key aq "hourly") ;;
   aidx <- lift (times <- Json.getitem_key ah "time" ;;
                 Json.index times now_key)%py ;;
   pm25 <- lift (series_at ah "pm2_5" aidx) ;;
   pm10 <- lift (series_at ah "pm10" aidx) ;;
   ret (Some pm25, Some pm10))%io.

(** The body of the outer [try] of the loop, lines 182-224: the dict it
    appends. *)
Definition process_point (name : string) (lat lon : Q) : M entry :=
  (w <- fetch_open_meteo_weather W lat lon ;;
   hourly <- lift (Json.getitem_key w "hourly") ;;
   now_key <- now_hour_key W ;;
   let idx := hour_index hourly now_key in
   precip_now <- lift (series_at hourly "precipitation" idx) ;;
   precip_next1 <- lift (next_hour_precip hourly idx) ;;
   hum <- lift (series_at hourly "relativehumidity_2m" idx) ;;
   pres <- lift (series_at hourly "pressure_msl" idx) ;;
   temp <- lift (series_at hourly "temperature_2m" idx) ;;
   pres_prev <- lift (previous_pressure hourly idx) ;;
   let pres_drop := pressure_drop pres_prev pres in
   '(pm25, pm10) <- try_except (air_quality lat lon now_key)
                               (fun _ => ret (None, None)) ;;
   '(score, label) <- lift (compute_landslide_score
                              (Some hum) (Some pres_drop) default_elev_m) ;;
   ret {| name := name; lat := lat; lon := lon;
          temp := Some temp; humid := Some hum; pressure := Some pres;
          precip_now := precip_now; precip_next1 := precip_next1;
          pressure_drop_3h := pres_drop;
          landslide_score := score; landslide_label := label;
          pm25 := pm25; pm10 := pm10;
          aqi_category := pm25_to_category pm25;
          error := None |})%io.

(** One iteration of the loop of lines 180-237: the entry appended. *)
Definition point_entry (p : string * Q * Q) : M entry :=
  let '(name, lat, lon) := p in
  try_except (process_point name lat lon)
             (fun e => ret (placeholder name lat lon (str_exn e))).

(** The loop over a registry, appending to [results]. *)
Fixpoint gather_loop (registry : list (string * Q * Q))
                     (results : list entry) : M (list entry) :=
  match registry with
  | [] => ret results
  | p :: rest =>
      (e <- point_entry p ;;
       gather_loop rest (results ++ [e]))%io
  end.

(** [gather_bubble_data()] over a given registry. *)
Definition gather_bubble_data_over (registry : list (string * Q * Q))
  : M (list entry) :=
  gather_loop registry [].

(** [gather_bubble_data()], lines 176-239. *)
Definition gather_bubble_data : M (list entry) :=
  gather_bubble_data_over BUBBLES.

End Pipeline.


(** The outcome of processing each point of a registry, in order, each at
    the state in which the loop reaches it. *)
Fixpoint point_outcomes (float_of_str : string -> option Q) (W : World)
    (registry : list (string * Q * Q)) (st : state) : list (result entry) :=
  match registry with
  | [] => []
  | (name, lat, lon) :: rest =>
      let '(r, st') := process_point float_of_str W name lat lon st in
      r :: point_outcomes float_of_str W rest st'
  end.

(** The entry the loop appends for a point, given the outcome of
    processing it. *)
Definition entry_of_outcome (p : string * Q * Q) (r : result entry) : entry :=
  let '(name, lat, lon) := p in
  match r with
  | Ok e => e
  | Err x => placeholder name lat lon (str_exn x)
  end.

(** The point an entry is about. *)
Definition point_of (e : entry) : string * Q * Q := (name e, lat e, lon e).

(** The test of line 129 on the primary feed, passed with the number
    [v]: the request is answered with status 200 and a JSON object whose
    ["feeds"] is a list, the first feed an object whose ["field1"] is a
    true value that [float] turns into [v]. This is the code's own test,
    not "the feed sends a number": the channel sends field values as
    strings, of which only the empty one is false, but a field that is the
    JSON number 0 is a number and false, and does not pass. *)
Inductive primary_accepted (float_of_str : string -> option Q)
  : result response -> Q -> Prop :=
| Primary_accepted (body : string) (doc feed0 : list (string * json))
    (more : list json) (field1 : json) (v : Q) :
    Json.lookup "feeds" doc = Some (JArr (JObj feed0 :: more)) ->
    Json.lookup "field1" feed0 = Some field1 ->
    Json.truthy field1 = true ->
    py_float float_of_str field1 = Ok v ->
    primary_accepted float_of_str (Ok (Response 200 body (Ok (JObj doc)))) v.

(** The secondary page is delivered and the river's name occurs in its
    body in some mix of upper and lower case. *)
Definition mentions_river (r : result response) : Prop :=
  exists resp before word after,
    r = Ok resp /\
    text resp = before ++ word ++ after /\
    PyStr.lower word = "teesta".

(** The two requests of the probe, and the state after one more
    request. *)
Definition thingspeak : request := Get TEESTA_THINGSPEAK [].

Definition cwc : request := Get CWC_FFS [].

Definition after_request (st : state) (req : request) : state :=
  State (requests st ++ [req]) (clock_reads st).

(** ** Sample data *)

Module Sample.

(** Plain decimal numerals ([12], [12.5], [-0.75], [.5], [7.]), a part
    of what [float(s)] accepts. *)
Definition digit (c : ascii) : option Z :=
  let n := nat_of_ascii c in
  if (48 <=? n)%nat && (n <=? 57)%nat then Some (Z.of_nat (n - 48)) else None.

Fixpoint fraction (s : string) (num : Z) (den : positive) (any : bool)
  : option Q :=
  match s with
  | EmptyString => if any then Some (Qred (num # den)) else None
  | String c s' =>
      match digit c with
      | Some d => fraction s' (num * 10 + d) (den * 10) true
      | None => None
      end
  end.

Fixpoint numeral (s : string) (num : Z) (any : bool) : option Q :=
  match s with
  | EmptyString => if any then Some (num # 1) else None
  | String c s' =>
      if Ascii.eqb c "." then fraction s' num 1 any
      else match digit c with
           | Some d => numeral s' (num * 10 + d) true
           | None => None
           end
  end.

Definition float_of_str (s : string) : option Q :=
  match s with
  | String c s' =>
      if Ascii.eqb c "-" then option_map Qopp (numeral s' 0 false)
      else if Ascii.eqb c "+" then numeral s' 0 false
      else numeral s 0 false
  | EmptyString => None
  end.

Definition nums (l : list Q) : json := JArr (map JNum l).

Definition hours : json :=
  JArr (map JStr [ "2025-07-01T00:00"; "2025-07-01T01:00";
                   "2025-07-01T02:00"; "2025-07-01T03:00";
                   "2025-07-01T04:00"; "2025-07-01T05:00" ]).

(** The hourly series of a weather response with the given pressures. *)
Definition hourly_with (pressures : list Q) : json :=
  JObj [ ("time", hours);
         ("temperature_2m", nums [14.2; 14.0; 13.8; 13.9; 14.5; 15.1]);
         ("relativehumidity_2m", nums [70; 72; 75; 78; 80; 82]);
         ("precipitation", nums [0; 0.1; 0.4; 1.2; 6.5; 2]);
         ("pressure_msl", nums pressures) ].

Definition weather_with (pressures : list Q) : json :=
  JObj [ ("hourly", hourly_with pressures) ].

Definition weather_doc : json :=
  weather_with [1012.5; 1012.0; 1011.0; 1010.5; 1009.0; 1008.5].

(** The same response with a reading of 0.0 as the first pressure. *)
Definition pressures_zero_prev : list Q :=
  [0; 1012.0; 1011.0; 1010.5; 1009.0; 1008.5].

Definition weather_doc_zero_prev : json := weather_with pressures_zero_prev.

Definition aq_doc : json :=
  JObj [ ("hourly",
          JObj [ ("time", hours);
                 ("pm10", nums [20; 21; 22; 23; 24; 25]);
                 ("pm2_5", nums [9; 10; 11; 12; 12.1; 13]) ]) ].

(** A feed in the format of the channel: field values are strings. *)
Definition feed_doc (field1 : string) : json :=
  JObj [ ("channel", JObj [ ("id", JNum 1231845) ]);
         ("feeds", JArr [ JObj [ ("created_at", JStr "2025-07-01T04:10:00Z");
                                 ("entry_id", JNum 7);
                                 ("field1", JStr field1) ] ]) ].

Definition ok_json (doc : json) : result response :=
  Ok (Response 200 "" (Ok doc)).

Definition page (body : string) : result response :=
  Ok (Response 200 body (raise JSONDecodeError "Expecting value")).

Definition timeout : result response :=
  raise RequestException "Read timed out. (read timeout=10)".

(** The latitude a request asks for. *)
Definition latitude_of (req : request) : option Q :=
  match req_params req with
  | ("latitude", ParamNum q) :: _ => Some q
  | _ => None
  end.

(** A world that answers by URL; the weather answer may depend on the
    latitude asked for. *)
Definition world (weather : option Q -> result response)
    (aq thingspeak cwc : result response) (hour : string) : World :=
  {| net := fun _ req =>
       if String.eqb (req_url req) OPEN_METEO_WEATHER
       then weather (latitude_of req)
       else if String.eqb (req_url req) OPEN_METEO_AQ then aq
       else if String.eqb (req_url req) TEESTA_THINGSPEAK then thingspeak
       else cwc;
     clock := fun _ => hour |}.

(** The weather source is down for the point at latitude 27.0470. *)
Definition ghoom_down (latitude : option Q) : result response :=
  match latitude with
  | Some q => if Qeq_bool q 27.0470 then timeout else ok_json weather_doc
  | None => ok_json weather_doc
  end.

Definition world_ghoom_down : World :=
  world ghoom_down (ok_json aq_doc) (ok_json (feed_doc "412.5"))
        (page "<html>Flood forecast: River TEESTA at Domohani</html>")
        "2025-07-01T04:00".

Definition world_zero_prev : World :=
  world (fun _ => ok_json weather_doc_zero_prev) (ok_json aq_doc) timeout
        timeout "2025-07-01T03:00".

Definition world_feed (field1 : string) : World :=
  world (fun _ => timeout) timeout (ok_json (feed_doc field1))
        (page "<html>River TEESTA</html>") "2025-07-01T04:00".

Definition world_cwc_only : World :=
  world (fun _ => timeout) timeout
        (Ok (Response 503 "Service Unavailable"
               (raise JSONDecodeError "Expecting value")))
        (page "<html>Flood forecast: River TEESTA at Domohani</html>")
        "2025-07-01T04:00".

Definition world_silent : World :=
  world (fun _ => timeout) timeout timeout (page "<html>maintenance</html>")
        "2025-07-01T04:00".

End Sample.


(** ** The map: colours, river box, marker positions *)

(** [color_for_result(res)], lines 242-248. *)
Definition color_for_result (res : entry) : string :=
  let label := landslide_label res in
  if String.eqb label "confirm 99%" then "darkred"
  else if String.eqb label "high" then "red"
  else if String.eqb label "mid" then "orange"
  else if PyNum.geb (precip_now res) 5 then "blue"
  else "green".

(** The dash of line 278, as the three bytes of its UTF-8 encoding. *)
Definition em_dash : string :=
  String (ascii_of_nat 226)
    (String (ascii_of_nat 128) (String (ascii_of_nat 148) EmptyString)).

Section RiverBox.

(** [str(x)] of a float, as an f-string prints it. *)
Variable str_float : Q -> string.

(** What an f-string prints for the value and the unit of a reading. *)
Definition str_value (value : option Q) : string :=
  match value with
  | Some v => str_float v
  | None => "None"
  end.

Definition str_unit (unit_label : option string) : string :=
  match unit_label with
  | Some u => u
  | None => "None"
  end.

(** The text of the river box, lines 271-278 of [build_map]. *)
Definition teesta_text (teesta : river_reading) : string :=
  let '(value, unit_label, status) := teesta in
  if String.eqb status "SEE_CWC" then "CWC mentions found (see FFS)"
  else if String.eqb status "NO_PUBLIC_RIVER_DATA" then "No public river data"
  else match value with
       | None => "No numeric data (" ++ status ++ ")"
       | Some _ =>
           str_value value ++ " " ++ str_unit unit_label ++ " " ++ em_dash
             ++ " " ++ status
       end.

End RiverBox.

Section Distance.

(** [haversine(lat1, lon1, lat2, lon2)], lines 72-79, gives a distance in
    kilometres. Its trigonometry on floats is not modelled: any function
    stands for it, with an [Err] where the call raises. *)
Variable haversine : Q -> Q -> Q -> Q -> result Q.

(** The loop of [jitter_if_close], lines 64-69. *)
Fixpoint jitter_loop (lat lon : Q) (existing : list (Q * Q)) (min_dist_m : Q)
  : result (Q * Q) :=
  match existing with
  | [] => Ok (lat, lon)
  | e :: rest =>
      (d <- haversine lat lon (fst e) (snd e) ;;
       if PyNum.ltb d (min_dist_m / 1000)
       then jitter_loop (lat + 0.0006) (lon + 0.0006) rest min_dist_m
       else jitter_loop lat lon rest min_dist_m)%py
  end.

(** [jitter_if_close(coord, existing, min_dist_m)], lines 61-70. *)
Definition jitter_if_close (coord : Q * Q) (existing : list (Q * Q))
    (min_dist_m : Q) : result (Q * Q) :=
  let '(lat, lon) := coord in
  jitter_loop lat lon existing min_dist_m.

(** The inner loop of [build_map], lines 294-297. *)
Fixpoint nudge (lat lon : Q) (placed : list (Q * Q)) : result (Q * Q) :=
  match placed with
  | [] => Ok (lat, lon)
  | p :: rest =>
      (d <- haversine lat lon (fst p) (snd p) ;;
       if PyNum.ltb d 0.4
       then nudge (lat + 0.0015) (lon + 0.0025) rest
       else nudge lat lon rest)%py
  end.

(** The positions the loop of lines 289-298 appends to [placed]. *)
Fixpoint place_loop (data : list entry) (placed : list (Q * Q))
  : result (list (Q * Q)) :=
  match data with
  | [] => Ok placed
  | r :: rest =>
      (pos <- nudge (lat r) (lon r) placed ;;
       place_loop rest (placed ++ [pos]))%py
  end.

Definition place_markers (data : list entry) : result (list (Q * Q)) :=
  place_loop data [].

End Distance.

(** The default of the parameter [min_dist_m]. *)
Definition default_min_dist_m : Q := 400.

(** The query of [fetch_open_meteo_weather] and of [fetch_open_meteo_aq]
    for a point. *)
Definition weather_request (lat lon : Q) : request :=
  Get OPEN_METEO_WEATHER
    [ ("latitude", ParamNum lat);
      ("longitude", ParamNum lon);
      ("hourly",
       ParamStr "temperature_2m,relativehumidity_2m,precipitation,pressure_msl");
      ("current_weather", ParamStr "true");
      ("timezone", ParamStr "Asia/Kolkata") ].

Definition aq_request (lat lon : Q) : request :=
  Get OPEN_METEO_AQ
    [ ("latitude", ParamNum lat);
      ("longitude", ParamNum lon);
      ("hourly", ParamStr "pm10,pm2_5,carbon_monoxide,nitrogen_dioxide,ozone");
      ("timezone", ParamStr "Asia/Kolkata") ].

Definition is_weather_request (req : request) : bool :=
  String.eqb (req_url req) OPEN_METEO_WEATHER.

(** ** The background updater *)

(** What the updater does to the desktop: a call of [build_map], a call of
    [window.load_url], a call of [time.sleep]. *)
Inductive event : Type :=
| BuildMap (data : list entry) (timestamp : string) (teesta : river_reading)
| LoadUrl (url : string)
| Sleep (seconds : Z).

(** The desktop side of the oracle: the path [OUT_HTML], the clock in the
    format ["%Y-%m-%d %H:%M"], and the outcomes of [build_map] and of
    [window.load_url] ([Err] when the call raises), each depending on the
    number of events before it. *)
Record Desktop : Type := {
  OUT_HTML : string;
  minute_stamp : nat -> string;
  build_map_outcome :
    nat -> list entry -> string -> river_reading -> result unit;
  load_url_outcome : nat -> string -> result unit
}.

Record app_state : Type := AppState {
  io : state;
  events : list event
}.

Definition REFRESH_SECONDS : Z := 3 * 60.

(** Computations of the updater. *)
Definition App (A : Type) : Type := app_state -> result A * app_state.

Definition app_ret {A} (a : A) : App A := fun s => (Ok a, s).

Definition app_bind {A B} (c : App A) (k : A -> App B) : App B :=
  fun s =>
    match c s with
    | (Ok a, s') => k a s'
    | (Err e, s') => (Err e, s')
    end.

(** [try: body  except: handler]. *)
Definition app_try {A} (body : App A) (handler : exn -> App A) : App A :=
  fun s =>
    match body s with
    | (Ok a, s') => (Ok a, s')
    | (Err e, s') => handler e s'
    end.

(** A computation on the network and the clock, run by the updater. *)
Definition run_io {A} (c : M A) : App A :=
  fun s => let '(r, io') := c (io s) in (r, AppState io' (events s)).

Declare Scope app_scope.
Delimit Scope app_scope with app.
Notation "x <- c ;; k" := (app_bind c (fun x => k))
  (at level 61, c at next level, right associativity) : app_scope.

Section Updater.

Variable float_of_str : string -> option Q.
Variable W : World.
Variable D : Desktop.

(** [datetime.now(tz).strftime("%Y-%m-%d %H:%M")]. *)
Definition now_minute : App string :=
  fun s =>
    (Ok (minute_stamp D (clock_reads (io s))),
     AppState (State (requests (io s)) (S (clock_reads (io s)))) (events s)).

(** [build_map(data, timestamp, teesta)], as a call that is logged and
    returns or raises as the desktop decides. *)
Definition build_map (data : list entry) (timestamp : string)
    (teesta : river_reading) : App unit :=
  fun s =>
    (build_map_outcome D (List.length (events s)) data timestamp teesta,
     AppState (io s) (events s ++ [BuildMap data timestamp teesta])).

(** [window.load_url(url)]. *)
Definition load_url (url : string) : App unit :=
  fun s =>
    (load_url_outcome D (List.length (events s)) url,
     AppState (io s) (events s ++ [LoadUrl url])).

(** [time.sleep(seconds)]. *)
Definition sleep (seconds : Z) : App unit :=
  fun s => (Ok tt, AppState (io s) (events s ++ [Sleep seconds])).

(** The body of the [try] of [updater_loop], lines 337-341. *)
Definition refresh : App unit :=
  (data <- run_io (gather_bubble_data float_of_str W) ;;
   teesta <- run_io (fetch_teesta_level float_of_str W) ;;
   ts <- now_minute ;;
   _ <- build_map data ts teesta ;;
   load_url ("file://" ++ OUT_HTML D))%app.

(** One iteration of the loop of [updater_loop], lines 336-344. *)
Definition tick : App unit :=
  (_ <- app_try refresh (fun _ => app_ret tt) ;;
   sleep REFRESH_SECONDS)%app.

(** The first [n] iterations of [updater_loop(window)], lines 333-344. *)
Fixpoint updater_loop (n : nat) : App unit :=
  match n with
  | O => app_ret tt
  | S k => (_ <- tick ;; updater_loop k)%app
  end.

End Updater.

(** ** Definitions for the further properties *)

(** The requests one point costs, given the entry gathered for it. *)
Definition requests_of (pe : string * Q * Q * entry) : list request :=
  let '(_, lat, lon, e) := pe in
  weather_request lat lon
  :: match error e with
     | None => [aq_request lat lon]
     | Some _ => []
     end.

(** An entry without its air-quality fields. *)
Definition without_air_quality (e : entry) : entry :=
  {| name := name e; lat := lat e; lon := lon e;
     temp := temp e; humid := humid e; pressure := pressure e;
     precip_now := precip_now e; precip_next1 := precip_next1 e;
     pressure_drop_3h := pressure_drop_3h e;
     landslide_score := landslide_score e;
     landslide_label := landslide_label e;
     pm25 := None; pm10 := None; aqi_category := "N/A";
     error := error e |}.

(** The position of an entry on the map before any shift. *)
Definition coords (r : entry) : Q * Q := (lat r, lon r).

(** [k] steps of a shift. *)
Definition steps (k : nat) (step : Q) : Q := inject_Z (Z.of_nat k) * step.

(** A coordinate after [k] shifts by [step], as the loops add them up. *)
Definition moved (k : nat) (step x : Q) : Q := Nat.iter k (fun y => y + step) x.

(** The number of tests that came out true. *)
Definition hits (flags : list bool) : nat :=
  List.length (filter (fun b : bool => b) flags).

(** The kinds of events. *)
Definition is_sleep (ev : event) : bool :=
  match ev with Sleep _ => true | _ => false end.

Definition is_build_map (ev : event) : bool :=
  match ev with BuildMap _ _ _ => true | _ => false end.

Definition is_load_url (ev : event) : bool :=
  match ev with LoadUrl _ => true | _ => false end.

(** What one iteration of the updater adds to the events, given what it
    gathered and how [build_map] ended. *)
Definition tick_events (D : Desktop) (n : nat) (data : list entry)
    (ts : string) (teesta : river_reading) : list event :=
  BuildMap data ts teesta
  :: match build_map_outcome D n data ts teesta with
     | Ok _ => [LoadUrl ("file://" ++ OUT_HTML D)]
     | Err _ => []
     end
  ++ [Sleep REFRESH_SECONDS].

(** ** More sample data *)

Module SampleMore.

(** Both sources up, and the air-quality source down, at the same hour. *)
Definition world_all_up : World :=
  Sample.world (fun _ => Sample.ok_json Sample.weather_doc)
               (Sample.ok_json Sample.aq_doc) Sample.timeout Sample.timeout
               "2025-07-01T04:00".

Definition world_aq_down : World :=
  Sample.world (fun _ => Sample.ok_json Sample.weather_doc)
               Sample.timeout Sample.timeout Sample.timeout
               "2025-07-01T04:00".

(** Both sources up, at an hour their time axes do not have. *)
Definition world_stale_hour : World :=
  Sample.world (fun _ => Sample.ok_json Sample.weather_doc)
               (Sample.ok_json Sample.aq_doc) Sample.timeout Sample.timeout
               "2025-07-02T09:00".

(** The primary feed with a JSON number, not a string, in its field, and
    a page that names the river. *)
Definition feed_doc_number (field1 : Q) : json :=
  JObj [ ("channel", JObj [ ("id", JNum 1231845) ]);
         ("feeds", JArr [ JObj [ ("created_at", JStr "2025-07-01T04:10:00Z");
                                 ("entry_id", JNum 7);
                                 ("field1", JNum field1) ] ]) ].

Definition world_feed_number (field1 : Q) : World :=
  Sample.world (fun _ => Sample.timeout) Sample.timeout
               (Sample.ok_json (feed_doc_number field1))
               (Sample.page "<html>River TEESTA</html>") "2025-07-01T04:00".

(** A stand-in for the distance: 111 km for each degree, along the axes. *)
Definition flat_distance (lat1 lon1 lat2 lon2 : Q) : result Q :=
  Ok (111 * (PyNum.max (lat2 - lat1) (lat1 - lat2)
             + PyNum.max (lon2 - lon1) (lon1 - lon2))).

(** An entry at a position. *)
Definition at_position (name : string) (lat lon : Q) : entry :=
  placeholder name lat lon "".

End SampleMore.

(** * Properties *)

(** ** Numbers *)

Module PyNumFacts.

Lemma leb_true a b : PyNum.leb a b = true <-> a <= b.
Proof. apply Qle_bool_iff. Qed.

Lemma leb_false a b : PyNum.leb a b = false <-> b < a.
Proof.
  unfold PyNum.leb. split; intro H.
  - apply Qnot_le_lt. intro L. apply Qle_bool_iff in L. congruence.
  - destruct (Qle_bool a b) eqn:E; [|reflexivity].
    apply Qle_bool_iff in E. lra.
Qed.

Lemma geb_true a b : PyNum.geb a b = true <-> b <= a.
Proof. apply leb_true. Qed.

Lemma geb_false a b : PyNum.geb a b = false <-> a < b.
Proof. apply leb_false. Qed.

Lemma ltb_true a b : PyNum.ltb a b = true <-> a < b.
Proof.
  unfold PyNum.ltb. rewrite negb_true_iff. apply (leb_false b a).
Qed.

Lemma ltb_false a b : PyNum.ltb a b = false <-> b <= a.
Proof.
  unfold PyNum.ltb. rewrite negb_false_iff. apply (leb_true b a).
Qed.

Lemma gtb_true a b : PyNum.gtb a b = true <-> b < a.
Proof. apply (ltb_true b a). Qed.

Lemma gtb_false a b : PyNum.gtb a b = false <-> a <= b.
Proof. apply (ltb_false b a). Qed.

Lemma truthy_true a : PyNum.truthy a = true <-> ~ a == 0.
Proof.
  unfold PyNum.truthy. rewrite negb_true_iff. split; intro H.
  - intro E. apply Qeq_bool_iff in E. congruence.
  - destruct (Qeq_bool a 0) eqn:E; [|reflexivity].
    apply Qeq_bool_iff in E. contradiction.
Qed.

Lemma truthy_false a : PyNum.truthy a = false <-> a == 0.
Proof.
  unfold PyNum.truthy. rewrite negb_false_iff. apply Qeq_bool_iff.
Qed.

(** Turn every boolean comparison in sight into an order fact. *)
Ltac order_facts :=
  repeat match goal with
    | H : PyNum.leb _ _ = true |- _ => apply leb_true in H
    | H : PyNum.leb _ _ = false |- _ => apply leb_false in H
    | H : PyNum.geb _ _ = true |- _ => apply geb_true in H
    | H : PyNum.geb _ _ = false |- _ => apply geb_false in H
    | H : PyNum.ltb _ _ = true |- _ => apply ltb_true in H
    | H : PyNum.ltb _ _ = false |- _ => apply ltb_false in H
    | H : PyNum.gtb _ _ = true |- _ => apply gtb_true in H
    | H : PyNum.gtb _ _ = false |- _ => apply gtb_false in H
    | H : PyNum.truthy _ = true |- _ => apply truthy_true in H
    | H : PyNum.truthy _ = false |- _ => apply truthy_false in H
    end.

(** Split on the first comparison the goal branches on. *)
Ltac split_cmp :=
  match goal with
  | |- context [if PyNum.leb ?a ?b then _ else _] =>
      destruct (PyNum.leb a b) eqn:?
  | |- context [if PyNum.geb ?a ?b then _ else _] =>
      destruct (PyNum.geb a b) eqn:?
  | |- context [if PyNum.ltb ?a ?b then _ else _] =>
      destruct (PyNum.ltb a b) eqn:?
  | |- context [if PyNum.gtb ?a ?b then _ else _] =>
      destruct (PyNum.gtb a b) eqn:?
  | |- context [if PyNum.truthy ?a then _ else _] =>
      destruct (PyNum.truthy a) eqn:?
  end.

Ltac by_cases := repeat split_cmp; order_facts.

Lemma max_cases a b :
  (a < b /\ PyNum.max a b = b) \/ (b <= a /\ PyNum.max a b = a).
Proof. unfold PyNum.max. by_cases; [left | right]; split; auto. Qed.

Lemma min_cases a b :
  (b < a /\ PyNum.min a b = b) \/ (a <= b /\ PyNum.min a b = a).
Proof. unfold PyNum.min. by_cases; [left | right]; split; auto. Qed.

Lemma max_lower a b : a <= PyNum.max a b.
Proof. destruct (max_cases a b) as [[? ->] | [? ->]]; lra. Qed.

Lemma min_upper a b : PyNum.min a b <= a.
Proof. destruct (min_cases a b) as [[? ->] | [? ->]]; lra. Qed.

Lemma max_mono a b c : b <= c -> PyNum.max a b <= PyNum.max a c.
Proof.
  intro H.
  destruct (max_cases a b) as [[? ->] | [? ->]];
    destruct (max_cases a c) as [[? ->] | [? ->]]; lra.
Qed.

Lemma min_mono a b c : b <= c -> PyNum.min a b <= PyNum.min a c.
Proof.
  intro H.
  destruct (min_cases a b) as [[? ->] | [? ->]];
    destruct (min_cases a c) as [[? ->] | [? ->]]; lra.
Qed.

(** Rounding to the nearest integer never reverses an order. *)
Lemma round_half_even_mono x y :
  x <= y -> (PyNum.round_half_even x <= PyNum.round_half_even y)%Z.
Proof.
  intro H. unfold PyNum.round_half_even.
  pose proof (Qfloor_resp_le _ _ H) as F.
  pose proof (Qfloor_le x) as Lx. pose proof (Qlt_floor x) as Ux.
  pose proof (Qfloor_le y) as Ly. pose proof (Qlt_floor y) as Uy.
  destruct (Z.eq_dec (Qfloor x) (Qfloor y)) as [E | N].
  - rewrite E in *.
    destruct (Qcompare_spec (x - inject_Z (Qfloor y)) (1 # 2));
      destruct (Qcompare_spec (y - inject_Z (Qfloor y)) (1 # 2));
      try destruct (Z.even (Qfloor y)); try lia; lra.
  - assert (Qfloor x + 1 <= Qfloor y)%Z by lia.
    destruct (Qcompare (x - inject_Z (Qfloor x)) (1 # 2));
      destruct (Qcompare (y - inject_Z (Qfloor y)) (1 # 2));
      try destruct (Z.even (Qfloor x)); try destruct (Z.even (Qfloor y));
      lia.
Qed.

Lemma round1_mono x y : x <= y -> PyNum.round1 x <= PyNum.round1 y.
Proof.
  intro H. unfold PyNum.round1. apply Qred_le.
  assert (x * 10 <= y * 10) as H10 by lra.
  apply round_half_even_mono in H10.
  unfold Qle. simpl. lia.
Qed.

Lemma round_half_even_near x :
  inject_Z (PyNum.round_half_even x) - (1 # 2) <= x /\
  x <= inject_Z (PyNum.round_half_even x) + (1 # 2).
Proof.
  unfold PyNum.round_half_even.
  pose proof (Qfloor_le x) as L.
  pose proof (Qlt_floor x) as U.
  rewrite inject_Z_plus in U. change (inject_Z 1) with 1 in U.
  destruct (Qcompare_spec (x - inject_Z (Qfloor x)) (1 # 2));
    try destruct (Z.even (Qfloor x)); try rewrite inject_Z_plus;
    try change (inject_Z 1) with 1; split; lra.
Qed.

(** The rounded value stays within half a tenth of the exact one. *)
Lemma round1_near x :
  x - (1 # 20) <= PyNum.round1 x /\ PyNum.round1 x <= x + (1 # 20).
Proof.
  unfold PyNum.round1. rewrite Qred_correct.
  pose proof (round_half_even_near (x * 10)) as [L U].
  set (z := PyNum.round_half_even (x * 10)) in *.
  assert (z # 10 == inject_Z z * (1 # 10)) as ->.
  { unfold Qeq, Qmult, inject_Z. simpl. lia. }
  split; lra.
Qed.

End PyNumFacts.

(** ** The hazard scorer *)

Module ScorerFacts.

Import PyNumFacts.

Lemma clamp_range x : 0 <= clamp_score x /\ clamp_score x <= 100.
Proof.
  unfold clamp_score.
  destruct (min_cases 100 x) as [[? ->] | [? ->]];
    destruct (max_cases 0 x) as [[? E] | [? E]];
    try (rewrite E; lra); destruct (max_cases 0 100) as [[? ->] | [? ->]];
    lra.
Qed.

Lemma clamp_mono x y : x <= y -> clamp_score x <= clamp_score y.
Proof.
  intro H. unfold clamp_score. apply max_mono, min_mono, H.
Qed.

(** A value that is already at least 15 and at most 100 is not moved
    below 15 by the clamp. *)
Lemma clamp_ge_15 x : 15 <= x -> 15 <= clamp_score x.
Proof.
  intro H. unfold clamp_score.
  destruct (min_cases 100 x) as [[? ->] | [? ->]].
  - destruct (max_cases 0 x) as [[? ->] | [? ->]]; lra.
  - destruct (max_cases 0 100) as [[? ->] | [? ->]]; lra.
Qed.

Lemma add_humidity_ge s hum : s <= add_humidity s hum.
Proof.
  destruct hum as [h|]; simpl; [|lra].
  by_cases; [|lra].
  destruct (max_cases 0 (h - 60)) as [[? ->] | [? ->]]; lra.
Qed.

Lemma add_humidity_mono s h1 h2 :
  h1 <= h2 -> add_humidity s (Some h1) <= add_humidity s (Some h2).
Proof.
  intro H. simpl. by_cases;
    try destruct (max_cases 0 (h1 - 60)) as [[? ->] | [? ->]];
    try destruct (max_cases 0 (h2 - 60)) as [[? ->] | [? ->]]; lra.
Qed.

Lemma add_pressure_num s p : add_pressure s (Some p) = Ok (pressure_added s p).
Proof. reflexivity. Qed.

Lemma pressure_added_ge s p : s <= pressure_added s p.
Proof.
  unfold pressure_added. by_cases; [|lra].
  destruct (min_cases 30 (p * 8)) as [[? ->] | [? ->]]; lra.
Qed.

Lemma pressure_added_mono s1 s2 p1 p2 :
  s1 <= s2 -> p1 <= p2 -> pressure_added s1 p1 <= pressure_added s2 p2.
Proof.
  intros Hs Hp. unfold pressure_added. by_cases;
    try destruct (min_cases 30 (p1 * 8)) as [[? ->] | [? ->]];
    try destruct (min_cases 30 (p2 * 8)) as [[? ->] | [? ->]]; lra.
Qed.

(** With a numeric pressure drop the scorer returns, and what it returns
    is the rounding and the label of one clamped sum. *)
Lemma compute_landslide_score_num hum p elev :
  let s := clamp_score
             (add_elevation (pressure_added (add_humidity 0 hum) p) elev) in
  raw_landslide_score hum (Some p) elev = Ok s /\
  compute_landslide_score hum (Some p) elev
  = Ok (PyNum.round1 s, label_of_score s).
Proof. split; reflexivity. Qed.

Lemma round1_range s :
  0 <= s -> s <= 100 -> 0 <= PyNum.round1 s /\ PyNum.round1 s <= 100.
Proof.
  intros L U. split.
  - apply Qle_trans with (PyNum.round1 0); [easy | apply round1_mono, L].
  - apply Qle_trans with (PyNum.round1 100); [apply round1_mono, U | easy].
Qed.

Lemma default_elevation_term :
  PyNum.min 15 ((default_elev_m - 500) / 100) = 15.
Proof. reflexivity. Qed.

Lemma raw_score_at_least_15 hum p :
  15 <= clamp_score
          (add_elevation (pressure_added (add_humidity 0 hum) p)
                         default_elev_m).
Proof.
  apply clamp_ge_15. unfold add_elevation.
  rewrite default_elevation_term.
  pose proof (add_humidity_ge 0 hum).
  pose proof (pressure_added_ge (add_humidity 0 hum) p). lra.
Qed.

(** With the default elevation and a numeric pressure drop the scorer
    returns a score of at least 15. *)
Lemma default_score_at_least_15 hum p :
  exists s l,
    compute_landslide_score hum (Some p) default_elev_m = Ok (s, l) /\
    15 <= s.
Proof.
  destruct (compute_landslide_score_num hum p default_elev_m) as [_ E].
  eexists _, _. split; [exact E|].
  apply Qle_trans with (PyNum.round1 15); [easy|].
  apply round1_mono, raw_score_at_least_15.
Qed.

End ScorerFacts.

Import PyNumFacts ScorerFacts.

(** C5. The label chain puts every score in exactly one band: 85 and above
    is "confirm 99%", 60 up to 85 is "high", 35 up to 60 is "mid", below 35
    is "no"; the scores 35, 60 and 85 fall in the higher band. The scorer
    labels the clamped score, which lies in 0..100. *)
Theorem label_bands_exhaustive_disjoint :
  (forall s,
      (85 <= s <-> label_of_score s = "confirm 99%") /\
      (60 <= s /\ s < 85 <-> label_of_score s = "high") /\
      (35 <= s /\ s < 60 <-> label_of_score s = "mid") /\
      (s < 35 <-> label_of_score s = "no")) /\
  label_of_score 35 = "mid" /\
  label_of_score 60 = "high" /\
  label_of_score 85 = "confirm 99%" /\
  (forall hum p elev,
      exists s l,
        raw_landslide_score hum (Some p) elev = Ok s /\
        0 <= s /\ s <= 100 /\
        compute_landslide_score hum (Some p) elev = Ok (l, label_of_score s)).
Proof.
  split; [|repeat split; try reflexivity].
  - intro s. unfold label_of_score.
    by_cases; repeat split; intros; try discriminate; try reflexivity; lra.
  - intros hum p elev.
    destruct (compute_landslide_score_num hum p elev) as [R C].
    eexists _, _. split; [exact R|]. split; [apply clamp_range|].
    split; [apply clamp_range | exact C].
Qed.

(** C6. Humidity 80 and a pressure drop of 2 at the default elevation:
    the terms are 16, 16 and 15, the score is 47 and the label "mid". *)
Theorem scenario_humidity_80_drop_2 :
  compute_landslide_score (Some 80) (Some 2) default_elev_m = Ok (47, "mid") /\
  PyNum.max 0 (80 - 60) * 0.8 == 16 /\
  PyNum.min 30 (2 * 8) == 16 /\
  PyNum.min 15 ((default_elev_m - 500) / 100) == 15 /\
  exists s, raw_landslide_score (Some 80) (Some 2) default_elev_m = Ok s /\
            s == 16 + 16 + 15.
Proof.
  repeat split; try reflexivity.
  eexists. split; reflexivity.
Qed.

(** C7. For all numeric humidity and pressure drop the scorer returns a
    score between 0 and 100; for a fixed pressure drop the score does not
    decrease as the humidity grows from 60 upwards; for a fixed humidity
    it does not decrease as a positive pressure drop grows. *)
Theorem landslide_score_bounded_monotone :
  (forall h p elev,
      exists s l,
        compute_landslide_score (Some h) (Some p) elev = Ok (s, l) /\
        0 <= s /\ s <= 100) /\
  (forall h1 h2 p elev,
      60 <= h1 -> h1 <= h2 ->
      exists s1 l1 s2 l2,
        compute_landslide_score (Some h1) (Some p) elev = Ok (s1, l1) /\
        compute_landslide_score (Some h2) (Some p) elev = Ok (s2, l2) /\
        s1 <= s2) /\
  (forall h p1 p2 elev,
      0 < p1 -> p1 <= p2 ->
      exists s1 l1 s2 l2,
        compute_landslide_score (Some h) (Some p1) elev = Ok (s1, l1) /\
        compute_landslide_score (Some h) (Some p2) elev = Ok (s2, l2) /\
        s1 <= s2).
Proof.
  repeat split.
  - intros h p elev.
    destruct (compute_landslide_score_num (Some h) p elev) as [_ C].
    eexists _, _. split; [exact C|].
    apply round1_range; apply clamp_range.
  - intros h1 h2 p elev _ H.
    destruct (compute_landslide_score_num (Some h1) p elev) as [_ C1].
    destruct (compute_landslide_score_num (Some h2) p elev) as [_ C2].
    eexists _, _, _, _. split; [exact C1|]. split; [exact C2|].
    apply round1_mono, clamp_mono. unfold add_elevation.
    pose proof (add_humidity_mono 0 h1 h2 H) as Hh.
    pose proof (pressure_added_mono _ _ p p Hh (Qle_refl p)). lra.
  - intros h p1 p2 elev _ H.
    destruct (compute_landslide_score_num (Some h) p1 elev) as [_ C1].
    destruct (compute_landslide_score_num (Some h) p2 elev) as [_ C2].
    eexists _, _, _, _. split; [exact C1|]. split; [exact C2|].
    apply round1_mono, clamp_mono. unfold add_elevation.
    pose proof (pressure_added_mono _ _ p1 p2
                  (Qle_refl (add_humidity 0 (Some h))) H). lra.
Qed.

(** C7 at humidities 70 and 95 with a drop of 1, and at drops 1 and 3 with
    humidity 70. *)
Lemma landslide_score_monotone_example :
  (exists s1 l1 s2 l2,
      compute_landslide_score (Some 70) (Some 1) default_elev_m = Ok (s1, l1) /\
      compute_landslide_score (Some 95) (Some 1) default_elev_m = Ok (s2, l2) /\
      s1 <= s2) /\
  (exists s1 l1 s2 l2,
      compute_landslide_score (Some 70) (Some 1) default_elev_m = Ok (s1, l1) /\
      compute_landslide_score (Some 70) (Some 3) default_elev_m = Ok (s2, l2) /\
      s1 <= s2).
Proof.
  split.
  - apply (proj1 (proj2 landslide_score_bounded_monotone)); lra.
  - apply (proj2 (proj2 landslide_score_bounded_monotone)); lra.
Defined.

(** C8. [None] gives "N/A"; a number gives "Good" up to 12, "Moderate" up
    to 35.4, "Unhealthy for Sensitive Groups" up to 55.4, "Unhealthy" up to
    150.4, "Very Unhealthy" up to 250.4 and "Hazardous" above, each upper
    bound included. *)
Theorem pm25_category_bands :
  pm25_to_category None = "N/A" /\
  (forall v,
      (v <= 12 -> pm25_to_category (Some v) = "Good") /\
      (12 < v -> v <= 35.4 -> pm25_to_category (Some v) = "Moderate") /\
      (35.4 < v -> v <= 55.4 ->
       pm25_to_category (Some v) = "Unhealthy for Sensitive Groups") /\
      (55.4 < v -> v <= 150.4 -> pm25_to_category (Some v) = "Unhealthy") /\
      (150.4 < v -> v <= 250.4 ->
       pm25_to_category (Some v) = "Very Unhealthy") /\
      (250.4 < v -> pm25_to_category (Some v) = "Hazardous")) /\
  pm25_to_category (Some 12) = "Good" /\
  pm25_to_category (Some 12.1) = "Moderate" /\
  pm25_to_category (Some 500) = "Hazardous".
Proof.
  split; [reflexivity|]. split; [|repeat split; reflexivity].
  intro v. unfold pm25_to_category.
  repeat split; intros; by_cases; try reflexivity; lra.
Qed.

(** C8 at the upper edges 35.4, 55.4, 150.4 and 250.4. *)
Lemma pm25_category_edges :
  pm25_to_category (Some 35.4) = "Moderate" /\
  pm25_to_category (Some 55.4) = "Unhealthy for Sensitive Groups" /\
  pm25_to_category (Some 150.4) = "Unhealthy" /\
  pm25_to_category (Some 250.4) = "Very Unhealthy".
Proof.
  pose proof (proj1 (proj2 pm25_category_bands)) as B.
  split; [|split; [|split]].
  - apply (B 35.4); lra.
  - apply (B 55.4); lra.
  - apply (B 150.4); lra.
  - apply (B 250.4); lra.
Defined.

(** C9. Below 0.2 mm the label is "No", from 0.2 to below 5 "Mid", from 5
    to below 20 "High", from 20 on "Confirm 99%". *)
Theorem rainfall_scale_bands :
  (forall mm,
      (mm < 0.2 -> rainfall_scale mm = "No") /\
      (0.2 <= mm -> mm < 5 -> rainfall_scale mm = "Mid") /\
      (5 <= mm -> mm < 20 -> rainfall_scale mm = "High") /\
      (20 <= mm -> rainfall_scale mm = "Confirm 99%")) /\
  rainfall_scale 0.19 = "No" /\
  rainfall_scale 0.2 = "Mid" /\
  rainfall_scale 19.99 = "High" /\
  rainfall_scale 20 = "Confirm 99%".
Proof.
  split; [|repeat split; reflexivity].
  intro mm. unfold rainfall_scale.
  repeat split; intros; by_cases; try reflexivity; lra.
Qed.

(** C9 at 4.99 and 5. *)
Lemma rainfall_scale_edges :
  rainfall_scale 4.99 = "Mid" /\ rainfall_scale 5 = "High".
Proof.
  pose proof (proj1 rainfall_scale_bands) as B.
  split.
  - apply (B 4.99); lra.
  - apply (B 5); lra.
Defined.

(** ** The monad *)

Module MFacts.

Lemma bind_ok {A B} (c : M A) (k : A -> M B) st b st' :
  bind c k st = (Ok b, st') ->
  exists a st1, c st = (Ok a, st1) /\ k a st1 = (Ok b, st').
Proof.
  unfold bind. destruct (c st) as [[a | e] st1]; intro H.
  - eauto.
  - discriminate.
Qed.

Lemma lift_ok {A} (r : result A) st a st' :
  lift r st = (Ok a, st') -> r = Ok a /\ st' = st.
Proof. unfold lift. intro H. inversion H. auto. Qed.

Lemma ret_ok {A} (x : A) st a st' :
  ret x st = (Ok a, st') -> a = x /\ st' = st.
Proof. unfold ret. intro H. inversion H. auto. Qed.

(** A [try] whose handler returns normally never raises. *)
Lemma try_except_total {A} (body : M A) (d : exn -> A) st :
  exists a st', try_except body (fun e => ret (d e)) st = (Ok a, st').
Proof.
  unfold try_except, ret. destruct (body st) as [[a | e] st1]; eauto.
Qed.

(** Take the outermost [bind] of a successful run apart. *)
Ltac step_bind H :=
  let a := fresh "a" in
  let st := fresh "st" in
  let Hc := fresh "Hc" in
  apply bind_ok in H; destruct H as (a & st & Hc & H).

End MFacts.

(** ** Data gathering *)

Module GatherFacts.

Import MFacts.

(** What a successful run of the loop body has read and built. *)
Lemma process_point_ok fos W n la lo st e st' :
  process_point fos W n la lo st = (Ok e, st') ->
  exists w st0 hourly hum pres t prev,
    let idx := hour_index hourly (clock W (clock_reads st0)) in
    fetch_open_meteo_weather W la lo st = (Ok w, st0) /\
    Json.getitem_key w "hourly" = Ok hourly /\
    (name e = n /\ lat e = la /\ lon e = lo /\ error e = None) /\
    series_at fos hourly "precipitation" idx = Ok (precip_now e) /\
    next_hour_precip fos hourly idx = Ok (precip_next1 e) /\
    (series_at fos hourly "relativehumidity_2m" idx = Ok hum /\
     humid e = Some hum) /\
    (series_at fos hourly "pressure_msl" idx = Ok pres /\
     pressure e = Some pres) /\
    (series_at fos hourly "temperature_2m" idx = Ok t /\ temp e = Some t) /\
    (previous_pressure fos hourly idx = Ok prev /\
     pressure_drop_3h e = pressure_drop prev pres) /\
    compute_landslide_score (Some hum) (Some (pressure_drop prev pres))
                            default_elev_m
    = Ok (landslide_score e, landslide_label e) /\
    aqi_category e = pm25_to_category (pm25 e).
Proof.
  unfold process_point. intro H.
  step_bind H. rename a into w, st0 into s0, Hc into Hw.
  step_bind H. apply lift_ok in Hc as [Hhourly ->].
  rename a into hourly.
  step_bind H. unfold now_hour_key in Hc. inversion Hc; subst a st0.
  clear Hc.
  step_bind H. apply lift_ok in Hc as [Hnow ->].
  step_bind H. apply lift_ok in Hc as [Hnext ->].
  step_bind H. apply lift_ok in Hc as [Hhum ->].
  step_bind H. apply lift_ok in Hc as [Hpres ->].
  step_bind H. apply lift_ok in Hc as [Htemp ->].
  step_bind H. apply lift_ok in Hc as [Hprev ->].
  step_bind H. destruct a5 as [p25 p10].
  step_bind H. apply lift_ok in Hc0 as [Hscore ->].
  destruct a5 as [score label].
  apply ret_ok in H as [-> _].
  exists w, s0, hourly, a1, a2, a3, a4. simpl.
  repeat split; assumption.
Qed.

(** An entry built by the loop body has a score of at least 15. *)
Lemma process_point_score fos W n la lo st e st' :
  process_point fos W n la lo st = (Ok e, st') ->
  15 <= landslide_score e.
Proof.
  intro H. apply process_point_ok in H.
  destruct H as (w & st0 & hourly & hum & pres & t & prev & H).
  destruct H as (_ & _ & _ & _ & _ & _ & _ & _ & _ & Hs & _).
  destruct (default_score_at_least_15 (Some hum) (pressure_drop prev pres))
    as (s & l & E & Hge).
  rewrite E in Hs. inversion Hs. subst. exact Hge.
Qed.

Lemma point_outcomes_length fos W registry :
  forall st, List.length (point_outcomes fos W registry st)
             = List.length registry.
Proof.
  induction registry as [|[[n la] lo] rest IH]; intro st; simpl.
  - reflexivity.
  - destruct (process_point fos W n la lo st) as [r st1]. simpl.
    now rewrite IH.
Qed.

(** The loop appends, for each point in turn, the entry of its outcome,
    and returns normally. *)
Lemma gather_loop_outcomes fos W registry :
  forall results st,
  exists st',
    gather_loop fos W registry results st
    = (Ok (results
           ++ map (fun pr => entry_of_outcome (fst pr) (snd pr))
                  (combine registry (point_outcomes fos W registry st)))%list,
       st').
Proof.
  induction registry as [|[[n la] lo] rest IH]; intros results st; simpl.
  - exists st. unfold ret. now rewrite app_nil_r.
  - unfold bind, try_except.
    destruct (process_point fos W n la lo st) as [[e | x] st1]; simpl;
      match goal with
      | |- context [gather_loop _ _ _ ?acc st1] =>
          destruct (IH acc st1) as [st' E]
      end;
      rewrite E; exists st'; now rewrite <- app_assoc.
Qed.

Lemma gather_outcomes fos W registry st :
  exists st',
    gather_bubble_data_over fos W registry st
    = (Ok (map (fun pr => entry_of_outcome (fst pr) (snd pr))
               (combine registry (point_outcomes fos W registry st))),
       st').
Proof. apply (gather_loop_outcomes fos W registry [] st). Qed.

(** Every outcome comes from running the loop body on its point. *)
Lemma point_outcomes_run fos W registry :
  forall st i p r,
    nth_error registry i = Some p ->
    nth_error (point_outcomes fos W registry st) i = Some r ->
    exists st0 st1,
      process_point fos W (fst (fst p)) (snd (fst p)) (snd p) st0 = (r, st1).
Proof.
  induction registry as [|[[n la] lo] rest IH]; intros st i p r Hp Hr.
  - destruct i; discriminate.
  - simpl in Hr.
    destruct (process_point fos W n la lo st) as [r0 st1] eqn:E.
    destruct i as [|i]; simpl in *.
    + inversion Hp; inversion Hr; subst. simpl. eauto.
    + eapply IH; eauto.
Qed.

(** The entry at a position is the entry of the outcome there. *)
Lemma nth_entry (registry : list (string * Q * Q)) outcomes i :
  nth_error (map (fun pr => entry_of_outcome (fst pr) (snd pr))
                 (combine registry outcomes)) i
  = match nth_error registry i, nth_error outcomes i with
    | Some p, Some r => Some (entry_of_outcome p r)
    | _, _ => None
    end.
Proof.
  revert outcomes i.
  induction registry as [|p rest IH]; intros [|r outcomes] [|i]; simpl;
    try reflexivity.
  - now destruct (nth_error rest i).
  - apply IH.
Qed.

(** The entries name the points of the registry, in order. *)
Lemma entries_points fos W registry :
  forall st,
    map point_of
        (map (fun pr => entry_of_outcome (fst pr) (snd pr))
             (combine registry (point_outcomes fos W registry st)))
    = registry.
Proof.
  induction registry as [|[[n la] lo] rest IH]; intro st; simpl.
  - reflexivity.
  - destruct (process_point fos W n la lo st) as [[e | x] st1] eqn:E;
      simpl; rewrite IH; [|reflexivity].
    apply process_point_ok in E.
    destruct E as (w & st0 & hourly & hum & pres & t & prev & E).
    destruct E as (_ & _ & (En & Ela & Elo & _) & _).
    unfold point_of. now rewrite En, Ela, Elo.
Qed.

(** A property of every placeholder and of every entry the loop body
    builds holds of every entry gathered. *)
Lemma entries_Forall fos W (P : entry -> Prop) :
  (forall n la lo msg, P (placeholder n la lo msg)) ->
  (forall n la lo st e st',
      process_point fos W n la lo st = (Ok e, st') -> P e) ->
  forall registry st,
    Forall P (map (fun pr => entry_of_outcome (fst pr) (snd pr))
                  (combine registry (point_outcomes fos W registry st))).
Proof.
  intros Hplace Hbody.
  induction registry as [|[[n la] lo] rest IH]; intro st; simpl.
  - constructor.
  - destruct (process_point fos W n la lo st) as [[e | x] st1] eqn:E;
      simpl; constructor; eauto.
Qed.

End GatherFacts.

(** ** Each point in the state the loop has reached *)

Module IsolationFacts.

Import MFacts GatherFacts.

(** The loop over the first [i] points of a registry stops in the state in
    which the whole loop processes point [i], with the first [i] entries
    of the whole loop appended. *)
Lemma gather_loop_prefix fos W :
  forall registry acc st i n la lo,
    nth_error registry i = Some (n, la, lo) ->
    exists st_i,
      gather_loop fos W (firstn i registry) acc st
      = (Ok (acc
             ++ firstn i
                  (map (fun pr => entry_of_outcome (fst pr) (snd pr))
                       (combine registry
                                (point_outcomes fos W registry st))))%list,
         st_i) /\
      nth_error (point_outcomes fos W registry st) i
      = Some (fst (process_point fos W n la lo st_i)).
Proof.
  induction registry as [|[[n0 la0] lo0] rest IH];
    intros acc st [|i] n la lo Hp; try discriminate Hp; simpl in Hp.
  - inversion Hp. subst. exists st. simpl.
    destruct (process_point fos W n la lo st) as [r st1]. simpl.
    unfold ret. now rewrite app_nil_r.
  - simpl. unfold bind, try_except.
    destruct (process_point fos W n0 la0 lo0 st) as [[e | x] st1]; simpl;
      match goal with
      | |- context [gather_loop _ _ _ ?acc' st1] =>
          destruct (IH acc' st1 i n la lo Hp) as (st_i & E & O)
      end;
      exists st_i; rewrite E, <- app_assoc; auto.
Qed.

(** An entry without error in the list gathered is the entry that
    processing its point returned, in the state the loop had reached. *)
Lemma gathered_entry_run fos W registry st i e :
  nth_error (map (fun pr => entry_of_outcome (fst pr) (snd pr))
                 (combine registry (point_outcomes fos W registry st))) i
  = Some e ->
  error e = None ->
  exists n la lo st_i st1,
    nth_error registry i = Some (n, la, lo) /\
    gather_bubble_data_over fos W (firstn i registry) st
    = (Ok (firstn i
             (map (fun pr => entry_of_outcome (fst pr) (snd pr))
                  (combine registry (point_outcomes fos W registry st)))),
       st_i) /\
    process_point fos W n la lo st_i = (Ok e, st1).
Proof.
  intros He Herr. rewrite nth_entry in He.
  destruct (nth_error registry i) as [[[n la] lo]|] eqn:Hp; [|discriminate].
  destruct (gather_loop_prefix fos W registry [] st i n la lo Hp)
    as (st_i & Hpre & Hout).
  rewrite Hout in He. inversion He as [Hent]. clear He.
  exists n, la, lo, st_i.
  destruct (process_point fos W n la lo st_i) as [[e' | x] st1] eqn:Hrun.
  - simpl in Hent. subst e'. exists st1. auto.
  - simpl in Hent. subst e. discriminate Herr.
Qed.

End IsolationFacts.

Import MFacts GatherFacts IsolationFacts.

(** C2, as the code has it. An absent humidity adds nothing: the scorer
    returns, and returns what it returns for a humidity of 0, whatever the
    numeric pressure drop. The absence of a reading three hours back is
    dealt with before the scorer is called: the loop body of
    [gather_bubble_data] reads the humidity and the pressure of the
    current hour and the pressure three hours back from the weather answer
    of this run, at the hour index of this run, and calls the scorer on
    that humidity and on the pressure drop it reports, both numbers; when
    the index is below 3 there is no reading three hours back, the drop
    is 0 and the score and label are those of a drop of 0, which adds
    nothing. Every entry without error that [gather_bubble_data] returns
    is the entry of such a run of the loop body, in the state the loop had
    reached at that point. *)
Theorem absent_inputs_contribute_zero :
  (forall score, add_humidity score None = score) /\
  (forall p elev,
      compute_landslide_score None (Some p) elev
      = compute_landslide_score (Some 0) (Some p) elev /\
      exists r, compute_landslide_score None (Some p) elev = Ok r) /\
  (forall pres, pressure_drop None pres = 0) /\
  (forall score, add_pressure score (Some 0) = Ok score) /\
  (forall fos W n la lo st e st',
      process_point fos W n la lo st = (Ok e, st') ->
      exists w st0 hourly hum pres prev,
        fetch_open_meteo_weather W la lo st = (Ok w, st0) /\
        Json.getitem_key w "hourly" = Ok hourly /\
        let idx := hour_index hourly (clock W (clock_reads st0)) in
        series_at fos hourly "relativehumidity_2m" idx = Ok hum /\
        series_at fos hourly "pressure_msl" idx = Ok pres /\
        previous_pressure fos hourly idx = Ok prev /\
        humid e = Some hum /\
        pressure_drop_3h e = pressure_drop prev pres /\
        compute_landslide_score (Some hum) (Some (pressure_drop_3h e))
                                default_elev_m
        = Ok (landslide_score e, landslide_label e) /\
        ((idx < 3)%nat ->
         prev = None /\
         pressure_drop_3h e = 0 /\
         compute_landslide_score (Some hum) (Some 0) default_elev_m
         = Ok (landslide_score e, landslide_label e))) /\
  (forall fos W registry st results st' i e,
      gather_bubble_data_over fos W registry st = (Ok results, st') ->
      nth_error results i = Some e ->
      error e = None ->
      exists n la lo st_i st1,
        nth_error registry i = Some (n, la, lo) /\
        gather_bubble_data_over fos W (firstn i registry) st
        = (Ok (firstn i results), st_i) /\
        process_point fos W n la lo st_i = (Ok e, st1)).
Proof.
  split; [reflexivity|]. split.
  { intros p elev. split; [reflexivity|].
    eexists. apply compute_landslide_score_num. }
  split; [reflexivity|]. split; [reflexivity|].
  split.
  2:{ intros fos W registry st results st' i e Hrun He Herr.
      destruct (gather_outcomes fos W registry st) as [st2 E].
      rewrite E in Hrun. inversion Hrun. subst results st2.
      now apply gathered_entry_run. }
  intros fos W n la lo st e st' Hrun.
  apply process_point_ok in Hrun.
  destruct Hrun as (w & st0 & hourly & hum & pres & t & prev & Hrun).
  cbv zeta in Hrun.
  destruct Hrun as (Hw & Hhourly & _ & _ & _ & (Hhum & Hh) & (Hpres & _) & _
                    & (Hprev & Hd) & Hs & _).
  exists w, st0, hourly, hum, pres, prev. cbv zeta.
  rewrite <- Hd in Hs.
  repeat (split; [assumption|]).
  intro Hidx. unfold previous_pressure in Hprev.
  apply Nat.leb_gt in Hidx. rewrite Hidx in Hprev.
  inversion Hprev. subst prev. simpl in Hd. rewrite Hd in Hs. auto.
Qed.

(** C2 on a run whose current hour is not on the time axis: the index is
    0, no reading three hours back exists, and the scorer is called on a
    drop of 0. *)
Lemma absent_reading_scored_as_zero :
  exists e st' hum,
    process_point Sample.float_of_str SampleMore.world_stale_hour
                  "Lebong" 27.0161 88.2536 initial_state = (Ok e, st') /\
    humid e = Some hum /\
    pressure_drop_3h e = 0 /\
    compute_landslide_score (Some hum) (Some 0) default_elev_m
    = Ok (landslide_score e, landslide_label e).
Proof.
  destruct (process_point Sample.float_of_str SampleMore.world_stale_hour
                          "Lebong" 27.0161 88.2536 initial_state)
    as [[e | x] st'] eqn:E.
  2:{ vm_compute in E. discriminate E. }
  destruct (proj1 (proj2 (proj2 (proj2 (proj2
                      absent_inputs_contribute_zero))))
              Sample.float_of_str SampleMore.world_stale_hour
              "Lebong" 27.0161 88.2536 initial_state e st' E)
    as (w & st0 & hourly & hum & pres & prev & Hw & Hhourly & H).
  cbv zeta in H.
  destruct H as (_ & _ & _ & Hh & _ & _ & Hlow).
  vm_compute in Hw. inversion Hw. subst w st0. clear Hw.
  vm_compute in Hhourly. inversion Hhourly. subst hourly. clear Hhourly.
  destruct Hlow as (_ & Hd & Hs); [vm_compute; lia|].
  exists e, st', hum. auto.
Defined.

(** C2, as stated, fails for the pressure drop: with [None] as the pressure
    drop the comparison [pres_drop_3h > 0] raises a [TypeError], while a
    drop of 0 returns a score. *)
Lemma scorer_raises_on_null_pressure_drop :
  compute_landslide_score (Some 80) None default_elev_m
  = Err (Raise TypeError
           "'>' not supported between instances of 'NoneType' and 'int'") /\
  compute_landslide_score (Some 80) (Some 0) default_elev_m = Ok (31, "no") /\
  compute_landslide_score (Some 80) None default_elev_m
  <> compute_landslide_score (Some 80) (Some 0) default_elev_m.
Proof.
  repeat split; try reflexivity. discriminate.
Qed.

(** C1. When processing raises for exactly one point of the registry and
    returns for every other point, [gather_bubble_data] returns normally
    with one entry per point, in registry order; the entry of the failing
    point carries the error text, score 0, label "no" and category "N/A";
    every other entry is the one its processing built, and has no error. *)
Theorem single_failure_is_isolated
    (fos : string -> option Q) (W : World)
    (registry : list (string * Q * Q)) (st : state) (k : nat) (x : exn) :
  nth_error (point_outcomes fos W registry st) k = Some (Err x) ->
  (forall i, i <> k -> (i < List.length registry)%nat ->
             exists e,
               nth_error (point_outcomes fos W registry st) i = Some (Ok e)) ->
  exists results st',
    gather_bubble_data_over fos W registry st = (Ok results, st') /\
    List.length results = List.length registry /\
    map point_of results = registry /\
    (exists failed,
        nth_error results k = Some failed /\
        error failed = Some (str_exn x) /\
        landslide_score failed = 0 /\
        landslide_label failed = "no" /\
        aqi_category failed = "N/A" /\
        pm25 failed = None /\ pm10 failed = None /\
        temp failed = None /\ humid failed = None /\ pressure failed = None) /\
    (forall i, i <> k -> (i < List.length registry)%nat ->
               exists e,
                 nth_error results i = Some e /\
                 nth_error (point_outcomes fos W registry st) i
                 = Some (Ok e) /\
                 error e = None /\
                 temp e <> None /\ humid e <> None /\ pressure e <> None).
Proof.
  intros Hk Hothers.
  destruct (gather_outcomes fos W registry st) as [st' E].
  eexists _, st'. split; [exact E|].
  split.
  { rewrite length_map, length_combine, point_outcomes_length.
    apply Nat.min_id. }
  split; [apply entries_points|].
  split.
  - assert (k < List.length registry)%nat as Hlt.
    { rewrite <- (point_outcomes_length fos W registry st).
      apply nth_error_Some. congruence. }
    destruct (nth_error registry k) as [[[n la] lo]|] eqn:Hp.
    2:{ apply nth_error_None in Hp. lia. }
    exists (placeholder n la lo (str_exn x)).
    rewrite nth_entry, Hp, Hk. simpl. repeat split; reflexivity.
  - intros i Hi Hlt.
    destruct (Hothers i Hi Hlt) as [e He]. exists e.
    destruct (nth_error registry i) as [p|] eqn:Hp.
    2:{ apply nth_error_None in Hp. lia. }
    rewrite nth_entry, Hp, He. destruct p as [[n la] lo]. simpl.
    split; [reflexivity|]. split; [reflexivity|].
    destruct (point_outcomes_run fos W registry st i _ _ Hp He)
      as (st0 & st1 & Hrun).
    apply process_point_ok in Hrun.
    destruct Hrun as (w & s0 & hourly & hum & pres & t & prev & Hrun).
    destruct Hrun as (_ & _ & (_ & _ & _ & ->) & _ & _ & (_ & ->) & (_ & ->)
                      & (_ & ->) & _).
    repeat split; discriminate.
Qed.

(** C1 on the configured points, with the weather source down for Ghoom. *)
Lemma single_failure_at_ghoom :
  exists results st',
    gather_bubble_data Sample.float_of_str Sample.world_ghoom_down
                       initial_state = (Ok results, st') /\
    List.length results = 14%nat /\
    map point_of results = BUBBLES /\
    (exists failed,
        nth_error results 1 = Some failed /\
        error failed = Some "Read timed out. (read timeout=10)" /\
        landslide_score failed = 0 /\
        landslide_label failed = "no" /\
        aqi_category failed = "N/A" /\
        pm25 failed = None /\ pm10 failed = None /\
        temp failed = None /\ humid failed = None /\ pressure failed = None) /\
    (forall i, i <> 1%nat -> (i < 14)%nat ->
               exists e,
                 nth_error results i = Some e /\
                 nth_error (point_outcomes Sample.float_of_str
                              Sample.world_ghoom_down BUBBLES initial_state) i
                 = Some (Ok e) /\
                 error e = None /\
                 temp e <> None /\ humid e <> None /\ pressure e <> None).
Proof.
  apply (single_failure_is_isolated
           Sample.float_of_str Sample.world_ghoom_down BUBBLES initial_state
           1 (Raise RequestException "Read timed out. (read timeout=10)")).
  - vm_compute. reflexivity.
  - intros i Hi Hlt.
    do 14 (destruct i as [|i];
           [try (exfalso; apply Hi; reflexivity);
            eexists; vm_compute; reflexivity|]).
    simpl in Hlt. lia.
Defined.


(** C10. With the default elevation the scorer returns a score of at least
    15 for every humidity, present or absent, and every numeric pressure
    drop; so in what [gather_bubble_data] returns every entry without an
    error has a score of at least 15, and an entry with a score below 15
    is a placeholder: its score is 0 and it carries an error. *)
Theorem default_score_floor :
  (forall hum p,
      exists s l,
        compute_landslide_score hum (Some p) default_elev_m = Ok (s, l) /\
        15 <= s) /\
  (forall fos W registry st,
      exists results st',
        gather_bubble_data_over fos W registry st = (Ok results, st') /\
        Forall (fun e =>
                  (error e = None -> 15 <= landslide_score e) /\
                  (landslide_score e < 15 ->
                   landslide_score e = 0 /\ exists msg, error e = Some msg))
               results).
Proof.
  split; [exact default_score_at_least_15|].
  intros fos W registry st.
  destruct (gather_outcomes fos W registry st) as [st' E].
  eexists _, st'. split; [exact E|].
  apply entries_Forall.
  - intros n la lo msg. simpl. split.
    + discriminate.
    + intros _. split; [reflexivity | now exists msg].
  - intros n la lo st0 e st1 Hrun.
    pose proof (process_point_score _ _ _ _ _ _ _ _ Hrun) as Hge.
    split; [auto | lra].
Qed.

(** The fields derived from the series, as the loop body computes them:
    the precipitation at the hour index and at the next index if the
    series has one, else 0; the pressure drop is 0 when the index is below
    3 or the pressure three hours back is 0, else the earlier pressure
    minus the current one. *)
Lemma derived_fields fos (hourly : list (string * json)) precip pressures idx :
  Json.lookup "precipitation" hourly = Some (JArr precip) ->
  Json.lookup "pressure_msl" hourly = Some (JArr pressures) ->
  (forall x, nth_error precip idx = Some x ->
             series_at fos (JObj hourly) "precipitation" idx
             = py_float fos x) /\
  (forall x, nth_error precip (idx + 1) = Some x ->
             next_hour_precip fos (JObj hourly) idx = py_float fos x) /\
  (nth_error precip (idx + 1) = None ->
   next_hour_precip fos (JObj hourly) idx = Ok 0) /\
  ((idx < 3)%nat -> previous_pressure fos (JObj hourly) idx = Ok None) /\
  (forall x prev,
      (3 <= idx)%nat -> nth_error pressures (idx - 3) = Some x ->
      py_float fos x = Ok prev ->
      previous_pressure fos (JObj hourly) idx = Ok (Some prev)) /\
  (forall pres, pressure_drop None pres = 0) /\
  (forall prev pres, ~ prev == 0 -> pressure_drop (Some prev) pres = prev - pres) /\
  (forall prev pres, prev == 0 -> pressure_drop (Some prev) pres = 0).
Proof.
  intros Hprecip Hpres.
  unfold next_hour_precip, previous_pressure, series_at, pressure_drop.
  cbn [Json.getitem_key Json.getitem_idx Json.len rbind].
  rewrite Hprecip, Hpres.
  cbn [Json.getitem_key Json.getitem_idx Json.len rbind].
  repeat split.
  - intros x Hx. now rewrite Hx.
  - intros x Hx.
    assert (idx + 1 < List.length precip)%nat as Hlt.
    { apply nth_error_Some. congruence. }
    apply Nat.ltb_lt in Hlt. rewrite Hlt, Hx. reflexivity.
  - intro Hnone. apply nth_error_None in Hnone.
    apply Nat.ltb_ge in Hnone. now rewrite Hnone.
  - intro Hlt. apply Nat.leb_gt in Hlt. now rewrite Hlt.
  - intros x prev Hge Hx Hf. apply Nat.leb_le in Hge.
    rewrite Hge, Hx. cbn [rbind]. now rewrite Hf.
  - intros prev pres Hnz. apply truthy_true in Hnz. now rewrite Hnz.
  - intros prev pres Hz. apply truthy_false in Hz. now rewrite Hz.
Qed.

(** C3 at a response whose pressure three hours back is 0.0: the hour
    index is 3, the pressures at indexes 0 and 3 are 0 and 1010.5, and the
    entry built has a pressure drop of 0, not 0 - 1010.5. *)
Theorem pressure_drop_lost_when_previous_is_zero :
  let hourly := Sample.hourly_with Sample.pressures_zero_prev in
  hour_index hourly "2025-07-01T03:00" = 3%nat /\
  series_at Sample.float_of_str hourly "pressure_msl" 0 = Ok 0 /\
  series_at Sample.float_of_str hourly "pressure_msl" 3 = Ok 1010.5 /\
  exists e st',
    process_point Sample.float_of_str Sample.world_zero_prev
                  "Ghoom" 27.0470 88.2632 initial_state = (Ok e, st') /\
    pressure e = Some 1010.5 /\
    pressure_drop_3h e = 0 /\
    ~ pressure_drop_3h e == 0 - 1010.5.
Proof.
  repeat split; try reflexivity.
  eexists _, _. split; [vm_compute; reflexivity|].
  repeat split; try reflexivity. simpl. intro H. discriminate H.
Qed.

(** ** The river probe *)

Module PyStrFacts.

Lemma startswith_iff p : forall s,
  PyStr.startswith p s = true <-> exists rest, s = p ++ rest.
Proof.
  induction p as [|a p IH]; intro s; simpl.
  - split; [intros _; now exists s | reflexivity].
  - destruct s as [|b s].
    + split; [discriminate | intros [rest H]; discriminate].
    + rewrite andb_true_iff, Ascii.eqb_eq, IH. split.
      * intros [-> [rest ->]]. now exists rest.
      * intros [rest H]. inversion H. eauto.
Qed.

Lemma find_some p : forall s i,
  PyStr.find p s = Some i -> exists before after, s = before ++ p ++ after.
Proof.
  induction s as [|c s IH]; intros i; simpl.
  - destruct (PyStr.startswith p "") eqn:E; [|discriminate].
    intros _. apply startswith_iff in E as [rest E]. now exists "", rest.
  - destruct (PyStr.startswith p (String c s)) eqn:E.
    + intros _. apply startswith_iff in E as [rest E]. now exists "", rest.
    + destruct (PyStr.find p s) as [j|] eqn:F; [|discriminate].
      intros _. destruct (IH j eq_refl) as (before & after & ->).
      now exists (String c before), after.
Qed.

Lemma find_none p : forall s,
  PyStr.find p s = None -> forall before after, s <> before ++ p ++ after.
Proof.
  induction s as [|c s IH]; simpl.
  - destruct (PyStr.startswith p "") eqn:E; [discriminate|].
    intros _ before after H. destruct before as [|b before].
    + assert (PyStr.startswith p "" = true) as T
          by (apply startswith_iff; now exists after).
      congruence.
    + discriminate.
  - destruct (PyStr.startswith p (String c s)) eqn:E; [discriminate|].
    destruct (PyStr.find p s) as [j|] eqn:F; [discriminate|].
    intros _ before after H. destruct before as [|b before].
    + assert (PyStr.startswith p (String c s) = true) as T
          by (apply startswith_iff; now exists after).
      congruence.
    + inversion H. eapply IH; eauto.
Qed.

(** [p in s] holds exactly when [p] occurs somewhere in [s]. *)
Lemma contains_iff p s :
  PyStr.contains p s = true <-> exists before after, s = before ++ p ++ after.
Proof.
  unfold PyStr.contains. destruct (PyStr.find p s) as [i|] eqn:F.
  - split; [intros _; eapply find_some; eauto | reflexivity].
  - split; [discriminate|].
    intros (before & after & H). exfalso. eapply find_none; eauto.
Qed.

Lemma lower_app a b : PyStr.lower (a ++ b) = PyStr.lower a ++ PyStr.lower b.
Proof. induction a as [|c a IH]; simpl; [reflexivity | now rewrite IH]. Qed.

Lemma lower_split x : forall t y,
  PyStr.lower t = x ++ y ->
  exists t1 t2, t = t1 ++ t2 /\ PyStr.lower t1 = x /\ PyStr.lower t2 = y.
Proof.
  induction x as [|c x IH]; intros t y H.
  - now exists "", t.
  - destruct t as [|d t]; [discriminate|]. simpl in H. inversion H.
    destruct (IH t y H2) as (t1 & t2 & -> & <- & <-).
    now exists (String d t1), t2.
Qed.

(** The test of the probe: the word occurs in the text in some mix of
    upper and lower case. *)
Lemma contains_lower_iff p t :
  PyStr.contains p (PyStr.lower t) = true <->
  exists before word after,
    t = before ++ word ++ after /\ PyStr.lower word = p.
Proof.
  rewrite contains_iff. split.
  - intros (b & a & H).
    apply lower_split in H as (t1 & t2 & -> & <- & H).
    apply lower_split in H as (t3 & t4 & -> & <- & <-).
    now exists t1, t3, t4.
  - intros (before & word & after & -> & <-).
    exists (PyStr.lower before), (PyStr.lower after).
    now rewrite !lower_app.
Qed.

End PyStrFacts.

Module RiverFacts.

Import PyStrFacts.

(** The first [try] returns the reading of the number the feed yields. *)
Lemma primary_hit fos W st v :
  primary_accepted fos (net W (List.length (requests st)) thingspeak) v ->
  teesta_primary fos W st
  = (Ok (Some (Some v, Some "cm (ThingSpeak)", teesta_status v)),
     after_request st thingspeak).
Proof.
  intro H. unfold teesta_primary, bind, requests_get, lift, ret.
  fold thingspeak. inversion H as [body doc feed0 more field1 v' F1 F2 T Fl E].
  simpl. rewrite F1. simpl. rewrite F2, T. simpl. rewrite Fl. reflexivity.
Qed.

(** When the feed yields no number the first [try] ends without a
    reading, having made its one request. *)
Lemma primary_miss fos W st :
  (forall v,
      ~ primary_accepted fos (net W (List.length (requests st)) thingspeak) v) ->
  try_except (teesta_primary fos W) (fun _ => ret None) st
  = (Ok None, after_request st thingspeak).
Proof.
  intro H. unfold try_except, teesta_primary, bind, requests_get, lift, ret.
  fold thingspeak.
  destruct (net W (List.length (requests st)) thingspeak)
    as [[code body jb] | x]; [|reflexivity].
  simpl. destruct (code =? 200)%Z eqn:C; [|reflexivity].
  apply Z.eqb_eq in C. subst code.
  destruct jb as [j | x]; [|reflexivity].
  destruct j as [| b | q | s | l | doc]; try reflexivity.
  simpl. destruct (Json.lookup "feeds" doc) as [feeds|] eqn:F1;
    [|reflexivity].
  destruct (Json.truthy feeds) eqn:T1; [|reflexivity].
  destruct feeds as [| b | q | s | l | m]; try reflexivity.
  - simpl. destruct (String.get 0 s); reflexivity.
  - destruct l as [|f0 more]; [discriminate|]. simpl.
    destruct f0 as [| b | q | s | l | feed0]; try reflexivity.
    simpl. destruct (Json.lookup "field1" feed0) as [field1|] eqn:F2;
      [|reflexivity].
    destruct (Json.truthy field1) eqn:T2; [|reflexivity].
    simpl. destruct (py_float fos field1) as [v | x] eqn:Fl; [|reflexivity].
    exfalso. apply (H v). econstructor; eauto.
Qed.

Lemma secondary_hit W st resp :
  net W (List.length (requests st)) cwc = Ok resp ->
  PyStr.contains "teesta" (PyStr.lower (text resp)) = true ->
  try_except (teesta_secondary W) (fun _ => ret None) st
  = (Ok (Some (None, Some "CWC FFS mention", "SEE_CWC")),
     after_request st cwc).
Proof.
  intros Hnet Hin. unfold try_except, teesta_secondary, bind, requests_get.
  fold cwc. rewrite Hnet, Hin. reflexivity.
Qed.

Lemma secondary_miss W st :
  (forall resp,
      net W (List.length (requests st)) cwc = Ok resp ->
      PyStr.contains "teesta" (PyStr.lower (text resp)) = false) ->
  try_except (teesta_secondary W) (fun _ => ret None) st
  = (Ok None, after_request st cwc).
Proof.
  intros H. unfold try_except, teesta_secondary, bind, requests_get.
  fold cwc. destruct (net W (List.length (requests st)) cwc) as [resp | x].
  - rewrite (H resp eq_refl). reflexivity.
  - reflexivity.
Qed.

Lemma mentions_river_iff r :
  mentions_river r <->
  exists resp,
    r = Ok resp /\ PyStr.contains "teesta" (PyStr.lower (text resp)) = true.
Proof.
  unfold mentions_river. split.
  - intros (resp & b & w & a & -> & Ht & Hw). exists resp. split; [reflexivity|].
    apply contains_lower_iff. eauto.
  - intros (resp & -> & H). apply contains_lower_iff in H.
    destruct H as (b & w & a & Ht & Hw). exists resp, b, w, a. auto.
Qed.

Lemma teesta_status_bands v :
  (400 < v -> teesta_status v = "FLOOD WARNING") /\
  (300 < v -> v <= 400 -> teesta_status v = "HIGH") /\
  (v < 100 -> teesta_status v = "LOW") /\
  (100 <= v -> v <= 300 -> teesta_status v = "NORMAL").
Proof.
  unfold teesta_status.
  repeat split; intros; by_cases; try reflexivity; lra.
Qed.

End RiverFacts.

Import RiverFacts.

(** The chain as the code runs it, on the finite numbers of this model.
    When the primary feed passes the test of line 129 with a number the
    probe returns that number with the status of its band (above 400
    "FLOOD WARNING", above 300 up to 400 "HIGH", below 100 "LOW", else
    "NORMAL") after the one request to the feed. When the test is not
    passed and the secondary page mentions the river the probe returns
    "SEE_CWC" with no value, otherwise "NO_PUBLIC_RIVER_DATA" with no
    value, after both requests. The probe always returns a reading. *)
Theorem river_fallback_chain (fos : string -> option Q) (W : World) (st : state) :
  let first := net W (List.length (requests st)) (Get TEESTA_THINGSPEAK []) in
  let second := net W (S (List.length (requests st))) (Get CWC_FFS []) in
  let asked_first :=
    State (requests st ++ [Get TEESTA_THINGSPEAK []]) (clock_reads st) in
  let asked_both :=
    State (requests st ++ [Get TEESTA_THINGSPEAK []; Get CWC_FFS []])
          (clock_reads st) in
  (forall v,
      primary_accepted fos first v ->
      exists status,
        fetch_teesta_level fos W st
        = (Ok (Some v, Some "cm (ThingSpeak)", status), asked_first) /\
        (400 < v -> status = "FLOOD WARNING") /\
        (300 < v -> v <= 400 -> status = "HIGH") /\
        (v < 100 -> status = "LOW") /\
        (100 <= v -> v <= 300 -> status = "NORMAL")) /\
  ((forall v, ~ primary_accepted fos first v) ->
   (mentions_river second ->
    fetch_teesta_level fos W st
    = (Ok (None, Some "CWC FFS mention", "SEE_CWC"), asked_both)) /\
   (~ mentions_river second ->
    fetch_teesta_level fos W st
    = (Ok (None, None, "NO_PUBLIC_RIVER_DATA"), asked_both))) /\
  (exists reading st', fetch_teesta_level fos W st = (Ok reading, st')).
Proof.
  intros first second asked_first asked_both.
  assert (List.length (requests (after_request st thingspeak))
          = S (List.length (requests st))) as Hlen.
  { simpl. rewrite length_app. simpl. lia. }
  assert (after_request (after_request st thingspeak) cwc = asked_both) as Hst.
  { unfold after_request, asked_both. simpl. now rewrite <- app_assoc. }
  split; [|split].
  - intros v Hv. exists (teesta_status v). split.
    + unfold fetch_teesta_level, bind at 1, try_except.
      rewrite (primary_hit fos W st v Hv). reflexivity.
    + apply teesta_status_bands.
  - intro Hmiss. split.
    + intro Hm. apply mentions_river_iff in Hm as (resp & Hnet & Hin).
      unfold fetch_teesta_level, bind at 1.
      rewrite (primary_miss fos W st Hmiss). unfold bind.
      rewrite (secondary_hit W _ resp); [now rewrite Hst | | exact Hin].
      rewrite Hlen. exact Hnet.
    + intro Hm.
      unfold fetch_teesta_level, bind at 1.
      rewrite (primary_miss fos W st Hmiss). unfold bind.
      rewrite (secondary_miss W); [now rewrite Hst|].
      intros resp Hnet. rewrite Hlen in Hnet.
      destruct (PyStr.contains "teesta" (PyStr.lower (text resp))) eqn:Hin;
        [|reflexivity].
      exfalso. apply Hm. apply mentions_river_iff. eauto.
  - unfold fetch_teesta_level, bind.
    destruct (try_except_total (teesta_primary fos W) (fun _ => None) st)
      as (a & st1 & ->).
    destruct a as [reading|]; [unfold ret; eauto|].
    destruct (try_except_total (teesta_secondary W) (fun _ => None) st1)
      as (b & st2 & ->).
    destruct b as [reading|]; unfold ret; eauto.
Qed.

(** The chain on four worlds: a feed reading of "412.5", a feed reading
    of "0", both strings, a feed that is down with a page that names the
    river, and a feed that is down with a page that does not. *)
Lemma river_fallback_chain_samples :
  (exists status,
      fetch_teesta_level Sample.float_of_str (Sample.world_feed "412.5")
                         initial_state
      = (Ok (Some (825 # 2), Some "cm (ThingSpeak)", status),
         State [thingspeak] 0) /\
      status = "FLOOD WARNING") /\
  (exists status,
      fetch_teesta_level Sample.float_of_str (Sample.world_feed "0")
                         initial_state
      = (Ok (Some 0, Some "cm (ThingSpeak)", status), State [thingspeak] 0) /\
      status = "LOW") /\
  fetch_teesta_level Sample.float_of_str Sample.world_cwc_only initial_state
  = (Ok (None, Some "CWC FFS mention", "SEE_CWC"), State [thingspeak; cwc] 0) /\
  fetch_teesta_level Sample.float_of_str Sample.world_silent initial_state
  = (Ok (None, None, "NO_PUBLIC_RIVER_DATA"), State [thingspeak; cwc] 0).
Proof.
  split; [|split; [|split]].
  - destruct (river_fallback_chain Sample.float_of_str
                (Sample.world_feed "412.5") initial_state) as (Hit & _ & _).
    destruct (Hit (825 # 2)) as (status & Hrun & Hflood & _).
    { vm_compute. econstructor; reflexivity. }
    exists status. split; [exact Hrun | apply Hflood; reflexivity].
  - destruct (river_fallback_chain Sample.float_of_str
                (Sample.world_feed "0") initial_state) as (Hit & _ & _).
    destruct (Hit 0) as (status & Hrun & _ & _ & Hlow & _).
    { vm_compute. econstructor; reflexivity. }
    exists status. split; [exact Hrun | apply Hlow; reflexivity].
  - destruct (river_fallback_chain Sample.float_of_str
                Sample.world_cwc_only initial_state) as (_ & Hmiss & _).
    apply Hmiss.
    + intros v H. vm_compute in H. inversion H.
    + eexists _, "<html>Flood forecast: River ", "TEESTA",
        " at Domohani</html>".
      repeat split; reflexivity.
  - destruct (river_fallback_chain Sample.float_of_str
                Sample.world_silent initial_state) as (_ & Hmiss & _).
    apply Hmiss.
    + intros v H. vm_compute in H. inversion H.
    + intro H. apply mentions_river_iff in H as (resp & E & C).
      vm_compute in E. inversion E. subst resp. vm_compute in C.
      discriminate C.
Defined.

(** C4. A river level of 0 that the primary feed sends as a number is
    lost. The feed is answered with status 200, its most recent entry has
    the field 0, [float] turns that field into 0 and the band of 0 is
    "LOW": the primary feed yields a numeric value, and the probe should
    return it with "LOW" after its one request. Line 129 tests the field
    for truth before converting it, and the number 0 is false: the probe
    goes on to the secondary page and returns "SEE_CWC" without a value
    after two requests. The same feed with the number 5, and with the
    string "0" that the channel would send, is read as it should be. The
    loss does not depend on the rest of the feed: for every answer whose
    most recent field is a number equal to 0, the probe makes both
    requests and returns a reading without a value. *)
Theorem numeric_zero_reading_is_dropped :
  (f <- Json.getitem_key (SampleMore.feed_doc_number 0) "feeds" ;;
   f0 <- Json.getitem_idx f 0 ;;
   x <- Json.getitem_key f0 "field1" ;;
   py_float Sample.float_of_str x)%py = Ok 0 /\
  teesta_status 0 = "LOW" /\
  fetch_teesta_level Sample.float_of_str (SampleMore.world_feed_number 0)
                     initial_state
  = (Ok (None, Some "CWC FFS mention", "SEE_CWC"), State [thingspeak; cwc] 0) /\
  fetch_teesta_level Sample.float_of_str (SampleMore.world_feed_number 5)
                     initial_state
  = (Ok (Some 5, Some "cm (ThingSpeak)", "LOW"), State [thingspeak] 0) /\
  fetch_teesta_level Sample.float_of_str (Sample.world_feed "0") initial_state
  = (Ok (Some 0, Some "cm (ThingSpeak)", "LOW"), State [thingspeak] 0) /\
  (forall fos W st body doc feed0 more q,
      net W (List.length (requests st)) thingspeak
      = Ok (Response 200 body (Ok (JObj doc))) ->
      Json.lookup "feeds" doc = Some (JArr (JObj feed0 :: more)) ->
      Json.lookup "field1" feed0 = Some (JNum q) ->
      q == 0 ->
      py_float fos (JNum q) = Ok q /\
      teesta_status q = "LOW" /\
      exists unit status,
        fetch_teesta_level fos W st
        = (Ok (None, unit, status),
           State (requests st ++ [thingspeak; cwc]) (clock_reads st)) /\
        status <> "LOW").
Proof.
  split; [reflexivity|]. split; [reflexivity|].
  split; [vm_compute; reflexivity|]. split; [vm_compute; reflexivity|].
  split; [vm_compute; reflexivity|].
  intros fos W st body doc feed0 more q Hnet F1 F2 Hq.
  split; [reflexivity|]. split.
  { apply teesta_status_bands. lra. }
  assert (forall v,
             ~ primary_accepted fos
                 (net W (List.length (requests st)) thingspeak) v) as Hno.
  { intros v Hv. rewrite Hnet in Hv.
    inversion Hv as [b d f0 m field1 v' G1 G2 T Fl E]. subst.
    rewrite F1 in G1. inversion G1. subst.
    rewrite F2 in G2. inversion G2. subst.
    simpl in T. unfold PyNum.truthy in T.
    apply negb_true_iff in T. apply Qeq_bool_neq in T. contradiction. }
  destruct (river_fallback_chain fos W st) as (_ & Hmiss & _).
  destruct (Hmiss Hno) as [Hyes Hnot].
  destruct (net W (S (List.length (requests st))) cwc) as [resp | x] eqn:Hsec.
  - destruct (PyStr.contains "teesta" (PyStr.lower (text resp))) eqn:Hin.
    + exists (Some "CWC FFS mention"), "SEE_CWC". split; [|discriminate].
      apply Hyes. apply mentions_river_iff. fold cwc. rewrite Hsec. eauto.
    + exists None, "NO_PUBLIC_RIVER_DATA". split; [|discriminate].
      apply Hnot. intro Hm. apply mentions_river_iff in Hm.
      destruct Hm as (resp' & E & C). fold cwc in E. rewrite Hsec in E.
      inversion E. subst. congruence.
  - exists None, "NO_PUBLIC_RIVER_DATA". split; [|discriminate].
    apply Hnot. intro Hm. apply mentions_river_iff in Hm.
    destruct Hm as (resp' & E & C). fold cwc in E. rewrite Hsec in E.
    discriminate E.
Qed.

(** ** The examples on binary64 numbers *)

Module Binary64Facts.

Import Floats.
#[local] Set Warnings "-inexact-float".
#[local] Open Scope float_scope.

(** The scenario of humidity 80 and pressure drop 2. *)
Lemma scenario_humidity_80_drop_2_binary64 :
  Binary64.raw_landslide_score (Some 80) (Some 2) 2000 = Ok 47 /\
  Binary64.compute_landslide_score (Some 80) (Some 2) 2000
  = Ok (Some 47%Q, "mid").
Proof. split; vm_compute; reflexivity. Qed.

Lemma label_boundaries_binary64 :
  Binary64.label_of_score 35 = "mid" /\
  Binary64.label_of_score 60 = "high" /\
  Binary64.label_of_score 85 = "confirm 99%" /\
  Binary64.label_of_score 34.9 = "no".
Proof. repeat split; vm_compute; reflexivity. Qed.

Lemma pm25_examples_binary64 :
  Binary64.pm25_to_category None = "N/A" /\
  Binary64.pm25_to_category (Some 12) = "Good" /\
  Binary64.pm25_to_category (Some 12.1) = "Moderate" /\
  Binary64.pm25_to_category (Some 35.4) = "Moderate" /\
  Binary64.pm25_to_category (Some 500) = "Hazardous".
Proof. repeat split; vm_compute; reflexivity. Qed.

Lemma rainfall_examples_binary64 :
  Binary64.rainfall_scale 0.19 = "No" /\
  Binary64.rainfall_scale 0.2 = "Mid" /\
  Binary64.rainfall_scale 19.99 = "High" /\
  Binary64.rainfall_scale 20 = "Confirm 99%".
Proof. repeat split; vm_compute; reflexivity. Qed.

Lemma null_inputs_binary64 :
  Binary64.compute_landslide_score None (Some 2) 2000
  = Binary64.compute_landslide_score (Some 0) (Some 2) 2000 /\
  Binary64.compute_landslide_score None (Some 2) 2000 = Ok (Some 31%Q, "no") /\
  Binary64.compute_landslide_score (Some 80) None 2000
  = Err (Raise TypeError
           "'>' not supported between instances of 'NoneType' and 'int'").
Proof. repeat split; vm_compute; reflexivity. Qed.

Lemma zero_previous_pressure_binary64 :
  Binary64.pressure_drop (Some 0) 1010.5 = 0 /\
  Binary64.pressure_drop (Some 1012) 1009 = 3 /\
  Binary64.pressure_drop None 1010.5 = 0.
Proof. repeat split; vm_compute; reflexivity. Qed.

Lemma status_examples_binary64 :
  Binary64.teesta_status 412.5 = "FLOOD WARNING" /\
  Binary64.teesta_status 400 = "HIGH" /\
  Binary64.teesta_status 300 = "NORMAL" /\
  Binary64.teesta_status 100 = "NORMAL" /\
  Binary64.teesta_status 0 = "LOW".
Proof. repeat split; vm_compute; reflexivity. Qed.

(** The label is that of the unrounded score: 59.96 is "mid" and is
    returned rounded to 60. *)
Lemma label_precedes_rounding_binary64 :
  Binary64.compute_landslide_score (Some 78.7) (Some 3.75) 2000
  = Ok (Some 60%Q, "mid").
Proof. vm_compute. reflexivity. Qed.

End Binary64Facts.

(** The rational model at the same input. *)
Remark label_precedes_rounding :
  raw_landslide_score (Some 78.7) (Some 3.75) default_elev_m = Ok 59.96 /\
  compute_landslide_score (Some 78.7) (Some 3.75) default_elev_m
  = Ok (60, "mid").
Proof. split; vm_compute; reflexivity. Qed.

(** * Further properties *)

(** ** The scorer *)

Module ScorerMore.

Lemma round_half_even_comp x y :
  x == y -> PyNum.round_half_even x = PyNum.round_half_even y.
Proof.
  intro H. unfold PyNum.round_half_even.
  rewrite (Qfloor_comp _ _ H).
  assert (x - inject_Z (Qfloor y) == y - inject_Z (Qfloor y)) as E
      by (rewrite H; reflexivity).
  now rewrite (Qcompare_comp _ _ E _ _ (Qeq_refl (1 # 2))).
Qed.

(** Equal numbers round to the same fraction. *)
Lemma round1_comp x y : x == y -> PyNum.round1 x = PyNum.round1 y.
Proof.
  intro H. unfold PyNum.round1.
  assert (x * 10 == y * 10) as E by (rewrite H; reflexivity).
  now rewrite (round_half_even_comp _ _ E).
Qed.

Lemma label_of_score_comp x y : x == y -> label_of_score x = label_of_score y.
Proof.
  intro H. unfold label_of_score. by_cases; try reflexivity; lra.
Qed.

Lemma clamp_comp x y : x == y -> clamp_score x == clamp_score y.
Proof.
  intro H. apply Qle_antisym; apply clamp_mono; lra.
Qed.

(** Two runs of the scorer whose sums before the clamp are equal return
    the same pair. *)
Lemma compute_comp hum1 p1 e1 hum2 p2 e2 :
  add_elevation (pressure_added (add_humidity 0 hum1) p1) e1
  == add_elevation (pressure_added (add_humidity 0 hum2) p2) e2 ->
  compute_landslide_score hum1 (Some p1) e1
  = compute_landslide_score hum2 (Some p2) e2.
Proof.
  intro H. apply clamp_comp in H.
  destruct (compute_landslide_score_num hum1 p1 e1) as [_ ->].
  destruct (compute_landslide_score_num hum2 p2 e2) as [_ ->].
  now rewrite (round1_comp _ _ H), (label_of_score_comp _ _ H).
Qed.

Lemma add_humidity_low h : h <= 60 -> add_humidity 0 (Some h) == 0.
Proof.
  intro H. simpl. by_cases; [|lra].
  destruct (max_cases 0 (h - 60)) as [[? ->] | [? ->]]; lra.
Qed.

Lemma add_humidity_upto_100 h : h <= 100 -> add_humidity 0 (Some h) <= 32.
Proof.
  intro H. simpl. by_cases; [|lra].
  destruct (max_cases 0 (h - 60)) as [[? ->] | [? ->]]; lra.
Qed.

Lemma pressure_added_le s p : pressure_added s p <= s + 30.
Proof.
  unfold pressure_added. by_cases; [|lra].
  destruct (min_cases 30 (p * 8)) as [[? ->] | [? ->]]; lra.
Qed.

Lemma pressure_added_comp s1 s2 p :
  s1 == s2 -> pressure_added s1 p == pressure_added s2 p.
Proof.
  intro H. apply Qle_antisym; apply pressure_added_mono; lra.
Qed.

Lemma pressure_added_low s p : p <= 0 -> pressure_added s p = s.
Proof. intro H. unfold pressure_added. by_cases; [lra | reflexivity]. Qed.

Lemma pressure_added_high s p : 3.75 <= p -> pressure_added s p == s + 30.
Proof.
  intro H. unfold pressure_added. by_cases; [|lra].
  destruct (min_cases 30 (p * 8)) as [[? ->] | [? ->]]; lra.
Qed.

Lemma elevation_high s e : 2000 <= e -> add_elevation s e == s + 15.
Proof.
  intro H. unfold add_elevation.
  assert (15 <= (e - 500) / 100) as Hge.
  { apply Qle_shift_div_l; [reflexivity | lra]. }
  destruct (min_cases 15 ((e - 500) / 100)) as [[L ->] | [? ->]].
  - exfalso. apply (Qlt_irrefl 15). eapply Qle_lt_trans; eauto.
  - reflexivity.
Qed.

(** The rounded score lies on the grid of tenths. *)
Lemma round1_grid x : PyNum.round1 x == PyNum.round_half_even (x * 10) # 10.
Proof. apply Qred_correct. Qed.

(** Away from an integer threshold, the rounded and the exact score lie on
    the same side of it. *)
Lemma threshold_agree (t : Z) r :
  ~ PyNum.round1 r == inject_Z t ->
  (inject_Z t <= PyNum.round1 r <-> inject_Z t <= r).
Proof.
  intro Hne. pose proof (round1_near r) as [L U].
  pose proof (round1_grid r) as G.
  set (s := PyNum.round1 r) in *. set (z := PyNum.round_half_even (r * 10)) in *.
  destruct (Z_lt_le_dec z (10 * t)) as [Hlt | Hge].
  - assert (s <= inject_Z t - (1 # 10)) as Hs.
    { rewrite G. unfold Qle, Qminus, Qplus, Qopp, inject_Z.
      cbn [Qnum Qden]. lia. }
    split; intro; lra.
  - assert (z <> 10 * t)%Z as Hz.
    { intro E. apply Hne. rewrite G, E.
      unfold Qeq, inject_Z. cbn [Qnum Qden]. lia. }
    assert (inject_Z t + (1 # 10) <= s) as Hs.
    { rewrite G. unfold Qle, Qplus, inject_Z. cbn [Qnum Qden]. lia. }
    split; intro; lra.
Qed.

(** At the default elevation a humidity of at most 100 keeps the clamped
    sum at 77 or below. *)
Lemma humidity_upto_100 (h p : Q) :
  h <= 100 ->
  clamp_score
    (add_elevation (pressure_added (add_humidity 0 (Some h)) p) default_elev_m)
  <= 77.
Proof.
  intro Hh. apply Qle_trans with (clamp_score 77); [|easy].
  apply clamp_mono. unfold add_elevation. rewrite default_elevation_term.
  pose proof (add_humidity_upto_100 h Hh).
  pose proof (pressure_added_le (add_humidity 0 (Some h)) p). lra.
Qed.

Lemma label_below_confirm r : r <= 77 -> label_of_score r <> "confirm 99%".
Proof.
  intro H. unfold label_of_score. by_cases; try discriminate. lra.
Qed.

End ScorerMore.

Import ScorerMore.

(** X1. A humidity of at most 60 counts like an absent humidity, and a
    pressure drop of at most 0 (steady or rising pressure) like a drop of
    0: the scorer returns the same score and label. *)
Theorem score_ignores_inputs_below_threshold
    (hum : option Q) (h p q elev : Q) :
  h <= 60 -> p <= 0 ->
  compute_landslide_score (Some h) (Some q) elev
  = compute_landslide_score None (Some q) elev /\
  compute_landslide_score hum (Some p) elev
  = compute_landslide_score hum (Some 0) elev.
Proof.
  intros Hh Hp. split; apply compute_comp.
  - pose proof (pressure_added_comp _ _ q (add_humidity_low h Hh)) as E.
    unfold add_elevation. simpl (add_humidity 0 None). lra.
  - now rewrite (pressure_added_low _ p Hp), (pressure_added_low _ 0).
Qed.

Lemma score_ignores_inputs_below_threshold_example :
  compute_landslide_score (Some 45) (Some 2) default_elev_m
  = compute_landslide_score None (Some 2) default_elev_m /\
  compute_landslide_score (Some 80) (Some (-2)) default_elev_m
  = compute_landslide_score (Some 80) (Some 0) default_elev_m.
Proof.
  apply (score_ignores_inputs_below_threshold (Some 80) 45 (-2) 2
           default_elev_m); lra.
Defined.

(** X2. The pressure term saturates at a drop of 3.75 and the elevation
    term at 2000 m: a larger drop scores like 3.75, a higher elevation
    like 2000. *)
Theorem score_saturates (hum : option Q) (p q elev high : Q) :
  3.75 <= p -> 2000 <= high ->
  compute_landslide_score hum (Some p) elev
  = compute_landslide_score hum (Some 3.75) elev /\
  compute_landslide_score hum (Some q) high
  = compute_landslide_score hum (Some q) default_elev_m.
Proof.
  intros Hp Hhigh. split; apply compute_comp.
  - unfold add_elevation.
    rewrite (pressure_added_high _ p Hp), (pressure_added_high _ 3.75);
      [reflexivity | lra].
  - rewrite (elevation_high _ high Hhigh), (elevation_high _ default_elev_m);
      [reflexivity | unfold default_elev_m; lra].
Qed.

Lemma score_saturates_example :
  compute_landslide_score (Some 80) (Some 12) default_elev_m
  = compute_landslide_score (Some 80) (Some 3.75) default_elev_m /\
  compute_landslide_score (Some 80) (Some 2) 8848
  = compute_landslide_score (Some 80) (Some 2) default_elev_m.
Proof.
  apply (score_saturates (Some 80) 12 2 default_elev_m 8848); lra.
Defined.

(** X3. At the default elevation a humidity of at most 100 gives a score
    of at most 77, so the label "confirm 99%" is out of reach whatever
    the pressure drop. *)
Theorem confirm_needs_humidity_above_100 (h p : Q) :
  h <= 100 ->
  exists s l,
    compute_landslide_score (Some h) (Some p) default_elev_m = Ok (s, l) /\
    s <= 77 /\ l <> "confirm 99%".
Proof.
  intro Hh. pose proof (humidity_upto_100 h p Hh) as Hr.
  destruct (compute_landslide_score_num (Some h) p default_elev_m) as [_ C].
  eexists _, _. split; [exact C|]. split.
  - apply Qle_trans with (PyNum.round1 77); [apply round1_mono, Hr | easy].
  - apply label_below_confirm, Hr.
Qed.

Lemma confirm_needs_humidity_above_100_example :
  exists s l,
    compute_landslide_score (Some 100) (Some 50) default_elev_m = Ok (s, l) /\
    s <= 77 /\ l <> "confirm 99%".
Proof. apply (confirm_needs_humidity_above_100 100 50). lra. Defined.

(** X4. The returned score is the exact score rounded to a tenth, at most
    0.05 away from it, and the label is that of the exact score; so the
    label is the band of the returned score unless the returned score is
    35, 60 or 85. *)
Theorem label_matches_returned_score
    (hum pres_drop : option Q) (elev s : Q) (l : string) :
  compute_landslide_score hum pres_drop elev = Ok (s, l) ->
  ~ s == 35 -> ~ s == 60 -> ~ s == 85 ->
  l = label_of_score s /\
  exists r, raw_landslide_score hum pres_drop elev = Ok r /\
            r - (1 # 20) <= s /\ s <= r + (1 # 20).
Proof.
  intros H N35 N60 N85. unfold compute_landslide_score in H.
  destruct (raw_landslide_score hum pres_drop elev) as [r | x] eqn:R;
    [|discriminate].
  simpl in H. inversion H. subst s l. split.
  - pose proof (threshold_agree 35 r N35) as T35.
    pose proof (threshold_agree 60 r N60) as T60.
    pose proof (threshold_agree 85 r N85) as T85.
    change (inject_Z 35) with 35 in T35. change (inject_Z 60) with 60 in T60.
    change (inject_Z 85) with 85 in T85.
    unfold label_of_score. by_cases; try reflexivity; exfalso;
      repeat match goal with
        | H : _ <-> _ |- _ => destruct H
        end; lra.
  - exists r. split; [reflexivity | apply round1_near].
Qed.

Lemma label_matches_returned_score_example :
  "mid" = label_of_score 47 /\
  exists r, raw_landslide_score (Some 80) (Some 2) default_elev_m = Ok r /\
            r - (1 # 20) <= 47 /\ 47 <= r + (1 # 20).
Proof.
  apply (label_matches_returned_score (Some 80) (Some 2) default_elev_m);
    [reflexivity | | | ]; intro H; discriminate H.
Defined.

(** ** Gathering *)

Module GatherMore.

(** Split on the outcome of the first pure step that is still to run. *)
Ltac split_step :=
  match goal with
  | |- context [match ?r with Ok _ => _ | Err _ => _ end] =>
      destruct r eqn:?; cbn [rbind fst snd]
  end.

(** The air-quality block makes its one request, whatever comes of it. *)
Lemma air_quality_state fos W la lo key st :
  snd (air_quality fos W la lo key st) = after_request st (aq_request la lo).
Proof.
  unfold air_quality, fetch_open_meteo_aq, bind, requests_get, lift, ret.
  fold (aq_request la lo). unfold after_request.
  repeat split_step; reflexivity.
Qed.

Lemma air_quality_ok fos W la lo key st x y st' :
  air_quality fos W la lo key st = (Ok (x, y), st') ->
  exists a b, x = Some a /\ y = Some b.
Proof.
  unfold air_quality. intro H.
  step_bind H. step_bind H. step_bind H. step_bind H. step_bind H.
  apply ret_ok in H as [H _]. inversion H. eauto.
Qed.

Lemma fetch_weather_state W la lo st :
  snd (fetch_open_meteo_weather W la lo st)
  = after_request st (weather_request la lo).
Proof.
  unfold fetch_open_meteo_weather, bind, requests_get, lift.
  fold (weather_request la lo). unfold after_request.
  repeat split_step; reflexivity.
Qed.

(** A point costs the weather request and the air-quality request when it
    is processed to the end, and only the weather request when it fails. *)
Lemma process_point_requests fos W n la lo st :
  match process_point fos W n la lo st with
  | (Ok e, st') =>
      requests st'
      = (requests st ++ [weather_request la lo; aq_request la lo])%list /\
      clock_reads st' = S (clock_reads st)
  | (Err x, st') =>
      requests st' = (requests st ++ [weather_request la lo])%list /\
      (clock_reads st' <= S (clock_reads st))%nat
  end.
Proof.
  unfold process_point. unfold bind at 1.
  pose proof (fetch_weather_state W la lo st) as Hw.
  destruct (fetch_open_meteo_weather W la lo st) as [[w | x] st1];
    simpl in Hw; subst st1; [|simpl; split; [reflexivity | lia]].
  unfold bind, lift, now_hour_key, ret.
  repeat (split_step; [|simpl; split; [reflexivity | lia]]).
  unfold try_except.
  match goal with
  | |- context [air_quality ?f ?w ?a ?b ?k ?s] =>
      pose proof (air_quality_state f w a b k s) as Ha;
      destruct (air_quality f w a b k s) as [[[x y] | err] st2]
  end; simpl in Ha; subst st2; simpl;
    (split; [now rewrite <- app_assoc | reflexivity]).
Qed.

(** The two air-quality fields of an entry are both present or both
    absent. *)
Lemma process_point_aq fos W n la lo st e st' :
  process_point fos W n la lo st = (Ok e, st') ->
  (pm25 e = None /\ pm10 e = None) \/
  (exists a b, pm25 e = Some a /\ pm10 e = Some b).
Proof.
  unfold process_point. intro H.
  do 9 step_bind H.
  step_bind H. destruct a8 as [p25 p10].
  step_bind H. destruct a8 as [score label].
  apply ret_ok in H as [-> _]. simpl.
  unfold try_except in Hc8.
  destruct (air_quality _ _ _ _ _ _) as [[[x y] | err] sta] eqn:A.
  - inversion Hc8. subst. right. eapply air_quality_ok; eauto.
  - unfold ret in Hc8. inversion Hc8. now left.
Qed.

(** The loop, with the requests it makes. *)
Lemma gather_loop_requests fos W registry :
  forall results st,
  exists es st',
    gather_loop fos W registry results st = (Ok (results ++ es)%list, st') /\
    List.length es = List.length registry /\
    requests st'
    = (requests st ++ flat_map requests_of (combine registry es))%list /\
    (clock_reads st' <= clock_reads st + List.length registry)%nat.
Proof.
  induction registry as [|[[n la] lo] rest IH]; intros results st.
  - exists [], st. simpl. unfold ret. rewrite !app_nil_r.
    split; [reflexivity|]. split; [reflexivity|]. split; [reflexivity | lia].
  - simpl. unfold bind, try_except.
    pose proof (process_point_requests fos W n la lo st) as R.
    destruct (process_point fos W n la lo st) as [[e | x] st1] eqn:E;
      destruct R as [Rq Rc]; simpl.
    + destruct (IH (results ++ [e])%list st1) as (es & st' & G & L & Q & C).
      exists (e :: es), st'. rewrite G, <- app_assoc. simpl.
      apply process_point_ok in E.
      destruct E as (w & s0 & hourly & hum & pres & t & prev & E).
      destruct E as (_ & _ & (_ & _ & _ & ->) & _).
      split; [reflexivity|]. split; [lia|]. split; [|lia].
      rewrite Q, Rq, <- app_assoc. reflexivity.
    + destruct (IH (results ++ [placeholder n la lo (str_exn x)])%list st1)
        as (es & st' & G & L & Q & C).
      exists (placeholder n la lo (str_exn x) :: es), st'.
      rewrite G, <- app_assoc. simpl.
      split; [reflexivity|]. split; [lia|]. split; [|lia].
      rewrite Q, Rq, <- app_assoc. reflexivity.
Qed.

Lemma made_weather_requests (registry : list (string * Q * Q)) :
  forall results,
    List.length results = List.length registry ->
    filter is_weather_request (flat_map requests_of (combine registry results))
    = map (fun p => weather_request (snd (fst p)) (snd p)) registry.
Proof.
  induction registry as [|[[n la] lo] rest IH]; intros [|e es] L;
    try discriminate; [reflexivity|].
  simpl in L. injection L as L. simpl.
  rewrite filter_app, (IH es L). f_equal.
  destruct (error e); reflexivity.
Qed.

Lemma made_length (registry : list (string * Q * Q)) :
  forall results,
    List.length results = List.length registry ->
    (List.length registry
     <= List.length (flat_map requests_of (combine registry results))
     <= 2 * List.length registry)%nat.
Proof.
  induction registry as [|[[n la] lo] rest IH]; intros [|e es] L;
    try discriminate; [simpl; lia|].
  simpl in L. injection L as L. specialize (IH es L).
  simpl. rewrite length_app. destruct (error e); simpl; lia.
Qed.

End GatherMore.

Import GatherMore.

(** X5. [gather_bubble_data] asks the weather source once for every point
    of the registry, in registry order and with the point's coordinates;
    it asks the air-quality source right after, for the points that got
    an entry without error and only for them; it makes no other request.
    So a run over [n] points makes between [n] and [2n] requests, and
    reads the clock at most [n] times. *)
Theorem gather_request_accounting
    (fos : string -> option Q) (W : World)
    (registry : list (string * Q * Q)) (st : state) :
  exists results st',
    gather_bubble_data_over fos W registry st = (Ok results, st') /\
    let made := flat_map requests_of (combine registry results) in
    requests st' = (requests st ++ made)%list /\
    filter is_weather_request made
    = map (fun p => weather_request (snd (fst p)) (snd p)) registry /\
    (List.length registry <= List.length made <= 2 * List.length registry)%nat /\
    (clock_reads st' <= clock_reads st + List.length registry)%nat.
Proof.
  destruct (gather_loop_requests fos W registry [] st)
    as (results & st' & G & L & Q & C).
  exists results, st'. split; [exact G|]. cbv zeta.
  split; [exact Q|]. split; [|split; [|exact C]].
  - apply made_weather_requests, L.
  - apply made_length, L.
Qed.

Module EntryFacts.

Lemma label_of_score_values s :
  In (label_of_score s) ["no"; "mid"; "high"; "confirm 99%"].
Proof. unfold label_of_score. by_cases; simpl; auto. Qed.

(** What the scorer returns on numbers: a score from 0 to 100 and one of
    the four labels. *)
Lemma scorer_output hum p elev s l :
  compute_landslide_score hum (Some p) elev = Ok (s, l) ->
  0 <= s /\ s <= 100 /\ In l ["no"; "mid"; "high"; "confirm 99%"].
Proof.
  destruct (compute_landslide_score_num hum p elev) as [_ ->].
  intro H. inversion H. subst.
  split; [|split]; [apply round1_range; apply clamp_range ..
                   | apply label_of_score_values].
Qed.




End EntryFacts.

Import EntryFacts.

(** X6. Every entry [gather_bubble_data] returns is of one of two kinds:
    without error, with temperature, humidity and pressure present; or
    with an error and with these absent. In both kinds the two air-quality
    values are both present or both absent, the category is the category
    of the PM2.5 value, the score lies between 0 and 100 and the label is
    one of "no", "mid", "high", "confirm 99%". *)
Theorem gathered_entries_well_formed
    (fos : string -> option Q) (W : World)
    (registry : list (string * Q * Q)) (st : state) :
  exists results st',
    gather_bubble_data_over fos W registry st = (Ok results, st') /\
    Forall (fun e =>
              ((error e = None /\
                temp e <> None /\ humid e <> None /\ pressure e <> None) \/
               (error e <> None /\
                temp e = None /\ humid e = None /\ pressure e = None)) /\
              ((pm25 e = None /\ pm10 e = None) \/
               (exists a b, pm25 e = Some a /\ pm10 e = Some b)) /\
              aqi_category e = pm25_to_category (pm25 e) /\
              0 <= landslide_score e /\ landslide_score e <= 100 /\
              In (landslide_label e) ["no"; "mid"; "high"; "confirm 99%"])
           results.
Proof.
  destruct (gather_outcomes fos W registry st) as [st' E].
  eexists _, st'. split; [exact E|].
  apply entries_Forall.
  - intros n la lo msg. simpl.
    split; [right; repeat split; discriminate|].
    split; [left; split; reflexivity|].
    split; [reflexivity|]. split; [easy|]. split; [easy | auto].
  - intros n la lo st0 e st1 Hrun.
    pose proof (process_point_aq _ _ _ _ _ _ _ _ Hrun) as Haq.
    apply process_point_ok in Hrun.
    destruct Hrun as (w & s0 & hourly & hum & pres & t & prev & Hrun).
    destruct Hrun as (_ & _ & (_ & _ & _ & He) & _ & _ & (_ & Hh) & (_ & Hp)
                      & (_ & Ht) & _ & Hs & Hc).
    apply scorer_output in Hs as (L & U & Hl).
    split; [left; rewrite He, Hh, Hp, Ht; repeat split; discriminate|].
    split; [exact Haq|]. split; [exact Hc|]. auto.
Qed.



(** X8. Whether a point fails, with which error, and every field of its
    entry but the air-quality ones depend on the weather answer and the
    clock only: two worlds that differ in nothing else give the same
    outcome up to PM2.5, PM10 and the category, and the same requests. *)
Theorem air_quality_cannot_fail_a_point
    (fos : string -> option Q) (W1 W2 : World)
    (n : string) (la lo : Q) (st : state) :
  (forall k, net W1 k (weather_request la lo)
             = net W2 k (weather_request la lo)) ->
  (forall k, clock W1 k = clock W2 k) ->
  match process_point fos W1 n la lo st, process_point fos W2 n la lo st with
  | (Ok e1, st1), (Ok e2, st2) =>
      without_air_quality e1 = without_air_quality e2 /\ st1 = st2
  | (Err x1, st1), (Err x2, st2) => x1 = x2 /\ st1 = st2
  | _, _ => False
  end.
Proof.
  intros Hnet Hclock.
  unfold process_point, fetch_open_meteo_weather, requests_get.
  fold (weather_request la lo).
  unfold bind, lift, now_hour_key, ret. rewrite Hnet.
  repeat first [ rewrite Hclock
               | split_step; [|split; reflexivity] ].
  unfold try_except.
  repeat match goal with
    | |- context [air_quality ?f ?w ?a ?b ?k ?s] =>
        let Ha := fresh "Ha" in
        pose proof (air_quality_state f w a b k s) as Ha;
        destruct (air_quality f w a b k s) as [[[? ?] | ?] ?];
        simpl in Ha; subst
    end;
    match goal with
    | |- context [compute_landslide_score ?h (Some ?p) ?e] =>
        destruct (compute_landslide_score_num h p e) as [_ ->]
    end; simpl; split; reflexivity.
Qed.

(** X9. A point aligned at an index below 3 (as every point is whose
    current hour is missing from the time axis) has a pressure drop of 0,
    and its score and label are those of its humidity alone. *)
Theorem early_index_has_no_pressure_term
    (fos : string -> option Q) (W : World) (n : string) (la lo : Q)
    (st st0 st' : state) (w hourly : json) (e : entry) :
  fetch_open_meteo_weather W la lo st = (Ok w, st0) ->
  Json.getitem_key w "hourly" = Ok hourly ->
  (hour_index hourly (clock W (clock_reads st0)) < 3)%nat ->
  process_point fos W n la lo st = (Ok e, st') ->
  pressure_drop_3h e = 0 /\
  compute_landslide_score (humid e) (Some 0) default_elev_m
  = Ok (landslide_score e, landslide_label e).
Proof.
  intros Hw Hh Hidx Hrun. apply process_point_ok in Hrun.
  destruct Hrun as (w' & s0 & hourly' & hum & pres & t & prev & Hrun).
  destruct Hrun as (Hw' & Hh' & _ & _ & _ & (_ & Hhum) & _ & _ & (Hprev & Hd)
                    & Hs & _).
  rewrite Hw in Hw'. inversion Hw'. subst w' s0.
  rewrite Hh in Hh'. inversion Hh'. subst hourly'.
  unfold previous_pressure in Hprev.
  apply Nat.leb_gt in Hidx. rewrite Hidx in Hprev. inversion Hprev. subst prev.
  simpl in Hd, Hs. rewrite Hhum. auto.
Qed.

(** ** Colours and the river *)

Module ColourFacts.

(** The colour of an entry whose label is one of the four the scorer
    gives. *)
Lemma colour_cases e :
  In (landslide_label e) ["no"; "mid"; "high"; "confirm 99%"] ->
  (color_for_result e = "darkred" <-> landslide_label e = "confirm 99%") /\
  (color_for_result e = "red" <-> landslide_label e = "high") /\
  (color_for_result e = "orange" <-> landslide_label e = "mid") /\
  (color_for_result e = "blue" <->
   landslide_label e = "no" /\ 5 <= precip_now e) /\
  (color_for_result e = "green" <->
   landslide_label e = "no" /\ precip_now e < 5).
Proof.
  unfold color_for_result. simpl.
  intros [H | [H | [H | [H | []]]]]; rewrite <- H; simpl; by_cases;
    repeat split; intros; try discriminate; try reflexivity;
    try match goal with
      | H : _ /\ _ |- _ => destruct H
      end; try discriminate; try lra.
Qed.

Lemma colour_and_rain e :
  (color_for_result e = "blue" ->
   rainfall_scale (precip_now e) = "High" \/
   rainfall_scale (precip_now e) = "Confirm 99%") /\
  (color_for_result e = "green" ->
   rainfall_scale (precip_now e) = "No" \/
   rainfall_scale (precip_now e) = "Mid").
Proof.
  unfold color_for_result, rainfall_scale.
  destruct (String.eqb (landslide_label e) "confirm 99%");
    [split; discriminate|].
  destruct (String.eqb (landslide_label e) "high"); [split; discriminate|].
  destruct (String.eqb (landslide_label e) "mid"); [split; discriminate|].
  by_cases; split; intros; try discriminate; auto; lra.
Qed.

End ColourFacts.

Import ColourFacts.

(** X10. For every entry [gather_bubble_data] returns the colour follows
    the label: "darkred" for "confirm 99%", "red" for "high", "orange" for
    "mid"; with the label "no" it is "blue" when the rain now is 5 mm or
    more, the values [rainfall_scale] calls "High" or "Confirm 99%", and
    "green" otherwise. An entry with an error is green, and an entry with
    a humidity of at most 100 is never dark red. *)
Theorem colours_of_gathered_entries
    (fos : string -> option Q) (W : World)
    (registry : list (string * Q * Q)) (st : state) :
  exists results st',
    gather_bubble_data_over fos W registry st = (Ok results, st') /\
    Forall (fun e =>
              (color_for_result e = "darkred" <->
               landslide_label e = "confirm 99%") /\
              (color_for_result e = "red" <-> landslide_label e = "high") /\
              (color_for_result e = "orange" <-> landslide_label e = "mid") /\
              (color_for_result e = "blue" <->
               landslide_label e = "no" /\ 5 <= precip_now e) /\
              (color_for_result e = "green" <->
               landslide_label e = "no" /\ precip_now e < 5) /\
              (color_for_result e = "blue" ->
               rainfall_scale (precip_now e) = "High" \/
               rainfall_scale (precip_now e) = "Confirm 99%") /\
              (error e <> None -> color_for_result e = "green") /\
              (forall h, humid e = Some h -> h <= 100 ->
                         color_for_result e <> "darkred"))
           results.
Proof.
  destruct (gather_outcomes fos W registry st) as [st' E].
  eexists _, st'. split; [exact E|].
  apply entries_Forall.
  - intros n la lo msg.
    destruct (colour_cases (placeholder n la lo msg)) as (C1 & C2 & C3 & C4 & C5);
      [simpl; auto|].
    repeat (split; [assumption|]).
    split; [apply colour_and_rain|].
    split; [reflexivity | discriminate].
  - intros n la lo st0 e st1 Hrun.
    apply process_point_ok in Hrun.
    destruct Hrun as (w & s0 & hourly & hum & pres & t & prev & Hrun).
    destruct Hrun as (_ & _ & (_ & _ & _ & He) & _ & _ & (_ & Hh) & _ & _ & _
                      & Hs & _).
    pose proof (scorer_output _ _ _ _ _ Hs) as (_ & _ & Hl).
    destruct (colour_cases e Hl) as (C1 & C2 & C3 & C4 & C5).
    repeat (split; [assumption|]).
    split; [apply colour_and_rain|].
    split; [intro N; congruence|].
    intros h Hh' Hle. rewrite Hh in Hh'. inversion Hh'. subst h.
    pose proof (humidity_upto_100 hum (pressure_drop prev pres) Hle) as Hr.
    destruct (compute_landslide_score_num
                (Some hum) (pressure_drop prev pres) default_elev_m) as [_ Hc].
    rewrite Hc in Hs. inversion Hs as [[Hscore Hlabel]].
    intro D. apply C1 in D. rewrite <- Hlabel in D.
    exact (label_below_confirm _ Hr D).
Qed.

Module RiverMore.

(** The first [try] ends with the reading of a number the feed yields or
    with none, and has made its one request. *)
Lemma primary_outcome fos W st :
  exists first,
    try_except (teesta_primary fos W) (fun _ => ret None) st
    = (Ok first, after_request st thingspeak) /\
    match first with
    | Some reading =>
        exists v,
          primary_accepted fos (net W (List.length (requests st)) thingspeak) v /\
          reading = (Some v, Some "cm (ThingSpeak)", teesta_status v)
    | None =>
        forall v,
          ~ primary_accepted fos (net W (List.length (requests st)) thingspeak) v
    end.
Proof.
  unfold try_except, teesta_primary, bind, requests_get, lift, ret.
  fold thingspeak. fold (after_request st thingspeak).
  destruct (net W (List.length (requests st)) thingspeak)
    as [[code body jb] | x].
  2:{ exists None. split; [reflexivity|]. intros v Hy. inversion Hy. }
  simpl. destruct (code =? 200)%Z eqn:C.
  2:{ exists None. split; [reflexivity|]. intros v Hy. inversion Hy.
      subst. discriminate. }
  apply Z.eqb_eq in C. subst code.
  destruct jb as [j | x].
  2:{ exists None. split; [reflexivity|]. intros v Hy. inversion Hy. }
  destruct j as [| b | q | s | l | doc];
    try (exists None; split; [reflexivity|]; intros v Hy; inversion Hy).
  simpl. destruct (Json.lookup "feeds" doc) as [feeds|] eqn:F1.
  2:{ exists None. split; [reflexivity|]. intros v Hy. inversion Hy.
      congruence. }
  destruct (Json.truthy feeds) eqn:T1.
  2:{ exists None. split; [reflexivity|]. intros v Hy. inversion Hy.
      subst. rewrite F1 in *.
      match goal with H : Some _ = Some _ |- _ => inversion H; subst end.
      discriminate. }
  destruct feeds as [| b | q | s | l | m];
    try (exists None; split; [reflexivity|]; intros v Hy; inversion Hy;
         congruence).
  - simpl. exists None. split; [destruct (String.get 0 s); reflexivity|].
    intros v Hy. inversion Hy. congruence.
  - destruct l as [|f0 more]; [discriminate|]. simpl.
    destruct f0 as [| b | q | s | l | feed0];
      try (exists None; split; [reflexivity|]; intros v Hy; inversion Hy;
           congruence).
    simpl. destruct (Json.lookup "field1" feed0) as [field1|] eqn:F2.
    2:{ exists None. split; [reflexivity|]. intros v Hy. inversion Hy.
        congruence. }
    destruct (Json.truthy field1) eqn:T2.
    2:{ exists None. split; [reflexivity|]. intros v Hy. inversion Hy.
        congruence. }
    simpl. destruct (py_float fos field1) as [v | x] eqn:Fl.
    + eexists (Some _). split; [reflexivity|]. exists v.
      split; [econstructor; eauto | reflexivity].
    + exists None. split; [reflexivity|]. intros v Hy. inversion Hy.
      congruence.
Qed.

(** The second [try] ends with the mention, or with none, and has made its
    one request. *)
Lemma secondary_outcome W st :
  exists second,
    try_except (teesta_secondary W) (fun _ => ret None) st
    = (Ok second, after_request st cwc) /\
    (second = Some (None, Some "CWC FFS mention", "SEE_CWC") \/
     second = None).
Proof.
  unfold try_except, teesta_secondary, bind, requests_get, ret.
  fold cwc. fold (after_request st cwc).
  destruct (net W (List.length (requests st)) cwc) as [resp | x].
  - destruct (PyStr.contains "teesta" (PyStr.lower (text resp)));
      eexists; split; try reflexivity; auto.
  - eexists; split; try reflexivity; auto.
Qed.

Lemma teesta_status_values v :
  In (teesta_status v) ["FLOOD WARNING"; "HIGH"; "LOW"; "NORMAL"].
Proof. unfold teesta_status. by_cases; simpl; auto. Qed.

(** The probe, on every world. *)
Lemma probe_outcome fos W st :
  exists reading st',
    fetch_teesta_level fos W st = (Ok reading, st') /\
    ((exists v,
         primary_accepted fos (net W (List.length (requests st)) thingspeak) v /\
         reading = (Some v, Some "cm (ThingSpeak)", teesta_status v) /\
         st' = after_request st thingspeak) \/
     ((reading = (None, Some "CWC FFS mention", "SEE_CWC") \/
       reading = (None, None, "NO_PUBLIC_RIVER_DATA")) /\
      st' = after_request (after_request st thingspeak) cwc)).
Proof.
  unfold fetch_teesta_level. unfold bind at 1.
  destruct (primary_outcome fos W st) as (first & -> & Hfirst).
  destruct first as [reading|].
  - destruct Hfirst as (v & Hy & ->). unfold ret.
    eexists _, _. split; [reflexivity|]. left. exists v. auto.
  - unfold bind.
    destruct (secondary_outcome W (after_request st thingspeak))
      as (second & -> & [-> | ->]); unfold ret;
      eexists _, _; (split; [reflexivity|]); right; auto.
Qed.

End RiverMore.

Import RiverMore.

(** X11. On every world the probe returns a reading of one of three
    shapes: a number with the unit "cm (ThingSpeak)" and one of the
    statuses "FLOOD WARNING", "HIGH", "LOW", "NORMAL"; no value with
    "SEE_CWC"; no value and no unit with "NO_PUBLIC_RIVER_DATA". It asks
    the feed first and the page only when it returns no number, makes no
    other request and does not read the clock. *)
Theorem probe_reading_shapes
    (fos : string -> option Q) (W : World) (st : state) :
  exists value unit_label status st',
    fetch_teesta_level fos W st = (Ok (value, unit_label, status), st') /\
    clock_reads st' = clock_reads st /\
    ((exists v, value = Some v /\ unit_label = Some "cm (ThingSpeak)" /\
                status = teesta_status v /\
                In status ["FLOOD WARNING"; "HIGH"; "LOW"; "NORMAL"] /\
                requests st' = (requests st ++ [thingspeak])%list) \/
     (value = None /\
      ((unit_label = Some "CWC FFS mention" /\ status = "SEE_CWC") \/
       (unit_label = None /\ status = "NO_PUBLIC_RIVER_DATA")) /\
      requests st' = (requests st ++ [thingspeak; cwc])%list)).
Proof.
  destruct (probe_outcome fos W st) as (reading & st' & E & H).
  destruct H as [(v & _ & -> & ->) | ([-> | ->] & ->)];
    eexists _, _, _, _; (split; [exact E|]); (split; [reflexivity|]).
  - left. exists v. repeat split. apply teesta_status_values.
  - right. simpl. rewrite <- app_assoc. auto.
  - right. simpl. rewrite <- app_assoc. auto 6.
Qed.

(** X12. The river box of [build_map], for the reading the probe returns:
    the text is "CWC mentions found (see FFS)", or "No public river data",
    or the number, its unit and its status; the branch "No numeric data"
    of line 275 is never taken. *)
Theorem river_box_of_probe
    (str_float : Q -> string) (fos : string -> option Q)
    (W : World) (st : state) :
  exists reading st',
    fetch_teesta_level fos W st = (Ok reading, st') /\
    (teesta_text str_float reading = "CWC mentions found (see FFS)" \/
     teesta_text str_float reading = "No public river data" \/
     exists v,
       reading = (Some v, Some "cm (ThingSpeak)", teesta_status v) /\
       teesta_text str_float reading
       = str_float v ++ " cm (ThingSpeak) " ++ em_dash ++ " "
           ++ teesta_status v) /\
    (fst (fst reading) = None ->
     snd reading = "SEE_CWC" \/ snd reading = "NO_PUBLIC_RIVER_DATA").
Proof.
  destruct (probe_outcome fos W st) as (reading & st' & E & H).
  exists reading, st'. split; [exact E|].
  destruct H as [(v & _ & -> & _) | ([-> | ->] & _)].
  - split; [|discriminate]. right. right. exists v. split; [reflexivity|].
    unfold teesta_text.
    pose proof (teesta_status_values v) as [H | [H | [H | [H | []]]]];
      rewrite <- H; reflexivity.
  - split; [left; reflexivity | auto].
  - split; [right; left; reflexivity | auto].
Qed.

(** ** Marker positions *)

Module PlacementFacts.

Section WithDistance.

Variable haversine : Q -> Q -> Q -> Q -> result Q.

Lemma steps_succ k step : steps (S k) step == step + steps k step.
Proof.
  unfold steps. rewrite Nat2Z.inj_succ. unfold Z.succ.
  rewrite inject_Z_plus. change (inject_Z 1) with 1. ring.
Qed.

Lemma steps_zero step : steps 0 step == 0.
Proof. unfold steps. simpl. ring. Qed.

Lemma jitter_loop_shift min_dist_m : forall existing lat lon lat' lon',
  jitter_loop haversine lat lon existing min_dist_m = Ok (lat', lon') ->
  exists k, (k <= List.length existing)%nat /\
            lat' == lat + steps k 0.0006 /\ lon' == lon + steps k 0.0006.
Proof.
  induction existing as [|e rest IH]; intros lat lon lat' lon' H; simpl in H.
  - inversion H. subst. exists 0%nat. rewrite steps_zero.
    repeat split; [lia | ring | ring].
  - destruct (haversine lat lon (fst e) (snd e)) as [d | x]; [|discriminate].
    simpl in H. destruct (PyNum.ltb d (min_dist_m / 1000)).
    + apply IH in H as (k & Hk & Hla & Hlo). exists (S k).
      rewrite steps_succ. simpl. repeat split; [lia | lra | lra].
    + apply IH in H as (k & Hk & Hla & Hlo). exists k.
      simpl. repeat split; [lia | lra | lra].
Qed.

Lemma jitter_loop_far min_dist_m : forall existing lat lon,
  (forall e, In e existing ->
             exists d, haversine lat lon (fst e) (snd e) = Ok d /\
                       min_dist_m / 1000 <= d) ->
  jitter_loop haversine lat lon existing min_dist_m = Ok (lat, lon).
Proof.
  induction existing as [|e rest IH]; intros lat lon H; simpl.
  - reflexivity.
  - destruct (H e (or_introl eq_refl)) as (d & -> & Hd). simpl.
    apply ltb_false in Hd. rewrite Hd. apply IH.
    intros e' He'. apply H. now right.
Qed.

Lemma nudge_shift : forall placed lat lon lat' lon',
  nudge haversine lat lon placed = Ok (lat', lon') ->
  exists k, (k <= List.length placed)%nat /\
            lat' == lat + steps k 0.0015 /\ lon' == lon + steps k 0.0025.
Proof.
  induction placed as [|p rest IH]; intros lat lon lat' lon' H; simpl in H.
  - inversion H. subst. exists 0%nat. rewrite !steps_zero.
    repeat split; [lia | ring | ring].
  - destruct (haversine lat lon (fst p) (snd p)) as [d | x]; [|discriminate].
    simpl in H. destruct (PyNum.ltb d 0.4).
    + apply IH in H as (k & Hk & Hla & Hlo). exists (S k).
      rewrite !steps_succ. simpl. repeat split; [lia | lra | lra].
    + apply IH in H as (k & Hk & Hla & Hlo). exists k.
      simpl. repeat split; [lia | lra | lra].
Qed.

Lemma nudge_far : forall placed lat lon,
  (forall p, In p placed ->
             exists d, haversine lat lon (fst p) (snd p) = Ok d /\ 0.4 <= d) ->
  nudge haversine lat lon placed = Ok (lat, lon).
Proof.
  induction placed as [|p rest IH]; intros lat lon H; simpl.
  - reflexivity.
  - destruct (H p (or_introl eq_refl)) as (d & -> & Hd). simpl.
    apply ltb_false in Hd. rewrite Hd. apply IH.
    intros p' Hp'. apply H. now right.
Qed.

(** The loop appends one position for each entry, shifted by as many
    steps as earlier positions were found too close. *)
Lemma place_loop_shift : forall data placed0 placed,
  place_loop haversine data placed0 = Ok placed ->
  exists ps,
    placed = (placed0 ++ ps)%list /\
    List.length ps = List.length data /\
    forall i r pos,
      nth_error data i = Some r -> nth_error ps i = Some pos ->
      exists k, (k <= List.length placed0 + i)%nat /\
                fst pos == lat r + steps k 0.0015 /\
                snd pos == lon r + steps k 0.0025.
Proof.
  induction data as [|r rest IH]; intros placed0 placed H; simpl in H.
  - inversion H. subst. exists []. rewrite app_nil_r.
    repeat split. intros [|i] ? ? E; discriminate E.
  - destruct (nudge haversine (lat r) (lon r) placed0) as [[la lo] | x] eqn:N;
      [|discriminate].
    simpl in H. apply IH in H as (ps & -> & L & Hps).
    exists ((la, lo) :: ps). rewrite <- app_assoc. simpl.
    split; [reflexivity|]. split; [lia|].
    intros [|i] r' pos Hr Hp; simpl in Hr, Hp.
    + inversion Hr. inversion Hp. subst.
      apply nudge_shift in N as (k & Hk & Hla & Hlo).
      exists k. simpl. repeat split; [lia | assumption | assumption].
    + destruct (Hps i r' pos Hr Hp) as (k & Hk & Hla & Hlo).
      exists k. rewrite length_app in Hk. simpl in Hk.
      repeat split; [lia | assumption | assumption].
Qed.

Lemma place_loop_far : forall data placed0,
  (forall r p, In r data -> In p placed0 ->
               exists d, haversine (lat r) (lon r) (fst p) (snd p) = Ok d /\
                         0.4 <= d) ->
  ForallOrdPairs
    (fun earlier later =>
       exists d, haversine (lat later) (lon later) (lat earlier) (lon earlier)
                 = Ok d /\ 0.4 <= d)
    data ->
  place_loop haversine data placed0 = Ok (placed0 ++ map coords data)%list.
Proof.
  induction data as [|r rest IH]; intros placed0 Hold Hpairs; simpl.
  - now rewrite app_nil_r.
  - rewrite nudge_far.
    2:{ intros p Hp. apply Hold; [now left | exact Hp]. }
    simpl. inversion Hpairs as [|? ? Hr Hrest]. subst.
    rewrite IH; [now rewrite <- app_assoc | | exact Hrest].
    intros r' p Hr' Hp. apply in_app_or in Hp as [Hp | [<- | []]].
    + apply Hold; [now right | exact Hp].
    + simpl. rewrite Forall_forall in Hr. apply Hr, Hr'.
Qed.

End WithDistance.

End PlacementFacts.

Import PlacementFacts.

Module TraceFacts.

Section WithDistance.

Variable haversine : Q -> Q -> Q -> Q -> result Q.

Lemma moved_first k step x : moved k step (x + step) = moved (S k) step x.
Proof. unfold moved. now rewrite Nat.iter_succ_r. Qed.

Lemma moved_steps k step x : moved k step x == x + steps k step.
Proof.
  induction k as [|k IH].
  - unfold moved, steps. simpl. ring.
  - change (moved (S k) step x) with (moved k step x + step).
    rewrite IH, PlacementFacts.steps_succ. ring.
Qed.

Lemma hits_le flags : (hits flags <= List.length flags)%nat.
Proof. apply filter_length_le. Qed.

(** The loop of [jitter_if_close], test by test: each listed point is
    tested from the position the earlier hits have led to, and the result
    is the start moved once for each hit. *)
Lemma jitter_loop_trace min_dist_m : forall existing lat lon res,
  jitter_loop haversine lat lon existing min_dist_m = Ok res ->
  exists flags,
    List.length flags = List.length existing /\
    (forall j e,
        nth_error existing j = Some e ->
        exists d,
          haversine (moved (hits (firstn j flags)) 0.0006 lat)
                    (moved (hits (firstn j flags)) 0.0006 lon)
                    (fst e) (snd e) = Ok d /\
          nth_error flags j = Some (PyNum.ltb d (min_dist_m / 1000))) /\
    res = (moved (hits flags) 0.0006 lat, moved (hits flags) 0.0006 lon).
Proof.
  induction existing as [|e rest IH]; intros lat lon res H; simpl in H.
  - inversion H. exists []. split; [reflexivity|]. split; [|reflexivity].
    intros [|j] e' E; discriminate E.
  - destruct (haversine lat lon (fst e) (snd e)) as [d | x] eqn:D;
      [|discriminate].
    simpl in H.
    destruct (PyNum.ltb d (min_dist_m / 1000)) eqn:B;
      apply IH in H as (flags & L & T & R).
    + exists (true :: flags). split; [simpl; now rewrite L|]. split.
      * intros [|j] e' E; simpl in E.
        -- inversion E. subst e'. exists d. simpl. now rewrite B.
        -- destruct (T j e' E) as (d' & Hd & Hf). exists d'.
           change (hits (firstn (S j) (true :: flags)))
             with (S (hits (firstn j flags))).
           rewrite <- !moved_first. auto.
      * change (hits (true :: flags)) with (S (hits flags)).
        now rewrite <- !moved_first.
    + exists (false :: flags). split; [simpl; now rewrite L|]. split.
      * intros [|j] e' E; simpl in E.
        -- inversion E. subst e'. exists d. simpl. now rewrite B.
        -- destruct (T j e' E) as (d' & Hd & Hf). exists d'. auto.
      * exact R.
Qed.

(** The inner loop of [build_map], test by test. *)
Lemma nudge_trace : forall placed lat lon res,
  nudge haversine lat lon placed = Ok res ->
  exists flags,
    List.length flags = List.length placed /\
    (forall j p,
        nth_error placed j = Some p ->
        exists d,
          haversine (moved (hits (firstn j flags)) 0.0015 lat)
                    (moved (hits (firstn j flags)) 0.0025 lon)
                    (fst p) (snd p) = Ok d /\
          nth_error flags j = Some (PyNum.ltb d 0.4)) /\
    res = (moved (hits flags) 0.0015 lat, moved (hits flags) 0.0025 lon).
Proof.
  induction placed as [|p rest IH]; intros lat lon res H; simpl in H.
  - inversion H. exists []. split; [reflexivity|]. split; [|reflexivity].
    intros [|j] p' E; discriminate E.
  - destruct (haversine lat lon (fst p) (snd p)) as [d | x] eqn:D;
      [|discriminate].
    simpl in H.
    destruct (PyNum.ltb d 0.4) eqn:B;
      apply IH in H as (flags & L & T & R).
    + exists (true :: flags). split; [simpl; now rewrite L|]. split.
      * intros [|j] p' E; simpl in E.
        -- inversion E. subst p'. exists d. simpl. now rewrite B.
        -- destruct (T j p' E) as (d' & Hd & Hf). exists d'.
           change (hits (firstn (S j) (true :: flags)))
             with (S (hits (firstn j flags))).
           rewrite <- !moved_first. auto.
      * change (hits (true :: flags)) with (S (hits flags)).
        now rewrite <- !moved_first.
    + exists (false :: flags). split; [simpl; now rewrite L|]. split.
      * intros [|j] p' E; simpl in E.
        -- inversion E. subst p'. exists d. simpl. now rewrite B.
        -- destruct (T j p' E) as (d' & Hd & Hf). exists d'. auto.
      * exact R.
Qed.

(** The marker loop: each position appended is the nudge of its entry
    against the positions before it. *)
Lemma place_loop_nudges : forall data placed0 placed,
  place_loop haversine data placed0 = Ok placed ->
  exists ps,
    placed = (placed0 ++ ps)%list /\
    List.length ps = List.length data /\
    forall i r,
      nth_error data i = Some r ->
      exists pos,
        nth_error ps i = Some pos /\
        nudge haversine (lat r) (lon r) (placed0 ++ firstn i ps)%list = Ok pos.
Proof.
  induction data as [|r rest IH]; intros placed0 placed H; simpl in H.
  - inversion H. exists []. rewrite app_nil_r.
    split; [reflexivity|]. split; [reflexivity|].
    intros [|i] r' E; discriminate E.
  - destruct (nudge haversine (lat r) (lon r) placed0) as [pos | x] eqn:N;
      [|discriminate].
    simpl in H. apply IH in H as (ps & -> & L & Hps).
    exists (pos :: ps). rewrite <- app_assoc. simpl.
    split; [reflexivity|]. split; [now rewrite L|].
    intros [|i] r' E; simpl in E.
    + inversion E. subst r'. exists pos. simpl. rewrite app_nil_r. auto.
    + destruct (Hps i r' E) as (pos' & Hn & Hnudge). exists pos'.
      simpl. rewrite <- app_assoc in Hnudge. auto.
Qed.


(** The converses: a trace of tests that fits is the run of the loop. *)
Lemma jitter_loop_of_trace min_dist_m : forall existing lat lon flags,
  List.length flags = List.length existing ->
  (forall j e,
      nth_error existing j = Some e ->
      exists d,
        haversine (moved (hits (firstn j flags)) 0.0006 lat)
                  (moved (hits (firstn j flags)) 0.0006 lon)
                  (fst e) (snd e) = Ok d /\
        nth_error flags j = Some (PyNum.ltb d (min_dist_m / 1000))) ->
  jitter_loop haversine lat lon existing min_dist_m
  = Ok (moved (hits flags) 0.0006 lat, moved (hits flags) 0.0006 lon).
Proof.
  induction existing as [|e rest IH]; intros lat lon [|b flags] L T;
    try discriminate L.
  - reflexivity.
  - destruct (T 0%nat e eq_refl) as (d & D & F).
    change (haversine lat lon (fst e) (snd e) = Ok d) in D.
    simpl in F. injection F as ->. simpl. rewrite D. simpl.
    destruct (PyNum.ltb d (min_dist_m / 1000)).
    + change (hits (true :: flags)) with (S (hits flags)).
      rewrite <- !moved_first. apply IH; [simpl in L; lia|].
      intros j e' E. destruct (T (S j) e' E) as (d' & D' & F').
      exists d'. rewrite !moved_first. split; [exact D' | exact F'].
    + change (hits (false :: flags)) with (hits flags).
      apply IH; [simpl in L; lia|].
      intros j e' E. destruct (T (S j) e' E) as (d' & D' & F').
      exists d'. auto.
Qed.

Lemma nudge_of_trace : forall placed lat lon flags,
  List.length flags = List.length placed ->
  (forall j p,
      nth_error placed j = Some p ->
      exists d,
        haversine (moved (hits (firstn j flags)) 0.0015 lat)
                  (moved (hits (firstn j flags)) 0.0025 lon)
                  (fst p) (snd p) = Ok d /\
        nth_error flags j = Some (PyNum.ltb d 0.4)) ->
  nudge haversine lat lon placed
  = Ok (moved (hits flags) 0.0015 lat, moved (hits flags) 0.0025 lon).
Proof.
  induction placed as [|p rest IH]; intros lat lon [|b flags] L T;
    try discriminate L.
  - reflexivity.
  - destruct (T 0%nat p eq_refl) as (d & D & F).
    change (haversine lat lon (fst p) (snd p) = Ok d) in D.
    simpl in F. injection F as ->. simpl. rewrite D. simpl.
    destruct (PyNum.ltb d 0.4).
    + change (hits (true :: flags)) with (S (hits flags)).
      rewrite <- !moved_first. apply IH; [simpl in L; lia|].
      intros j p' E. destruct (T (S j) p' E) as (d' & D' & F').
      exists d'. rewrite !moved_first. split; [exact D' | exact F'].
    + change (hits (false :: flags)) with (hits flags).
      apply IH; [simpl in L; lia|].
      intros j p' E. destruct (T (S j) p' E) as (d' & D' & F').
      exists d'. auto.
Qed.

Lemma place_loop_of_nudges : forall data placed0 ps,
  List.length ps = List.length data ->
  (forall i r,
      nth_error data i = Some r ->
      exists pos,
        nth_error ps i = Some pos /\
        nudge haversine (lat r) (lon r) (placed0 ++ firstn i ps)%list
        = Ok pos) ->
  place_loop haversine data placed0 = Ok (placed0 ++ ps)%list.
Proof.
  induction data as [|r rest IH]; intros placed0 [|pos ps] L H;
    try discriminate L.
  - simpl. now rewrite app_nil_r.
  - destruct (H 0%nat r eq_refl) as (pos' & E & N).
    simpl in E. inversion E. subst pos'. simpl in N.
    rewrite app_nil_r in N. simpl. rewrite N. simpl.
    replace (placed0 ++ pos :: ps)%list with ((placed0 ++ [pos]) ++ ps)%list
      by (rewrite <- app_assoc; reflexivity).
    apply IH; [simpl in L; lia|].
    intros i r' E'. destruct (H (S i) r' E') as (pos' & Hn & Hnudge).
    exists pos'. split; [exact Hn|].
    rewrite <- app_assoc. exact Hnudge.
Qed.

End WithDistance.

End TraceFacts.

Import TraceFacts.

(** X13. [jitter_if_close] tests the listed points in order, each from the
    position the earlier tests have led to, and moves the point 0.0006
    degrees north and east each time the distance is below [min_dist_m]
    metres. It returns exactly when every one of these distances is
    computed, and the result is then the point moved once for every test
    that came out true, neither more nor less: [fst coord + k * 0.0006]
    and [snd coord + k * 0.0006] for the number [k] of such tests. An
    empty list, and a list of points that are all far enough, leave the
    point where it is. *)
Theorem jitter_if_close_shift (haversine : Q -> Q -> Q -> Q -> result Q)
    (coord : Q * Q) (existing : list (Q * Q)) (min_dist_m : Q) :
  (forall res,
      jitter_if_close haversine coord existing min_dist_m = Ok res <->
      exists flags,
        List.length flags = List.length existing /\
        (forall j e,
            nth_error existing j = Some e ->
            exists d,
              haversine (moved (hits (firstn j flags)) 0.0006 (fst coord))
                        (moved (hits (firstn j flags)) 0.0006 (snd coord))
                        (fst e) (snd e) = Ok d /\
              nth_error flags j = Some (PyNum.ltb d (min_dist_m / 1000))) /\
        res = (moved (hits flags) 0.0006 (fst coord),
               moved (hits flags) 0.0006 (snd coord))) /\
  (forall flags,
      List.length flags = List.length existing ->
      (hits flags <= List.length existing)%nat /\
      moved (hits flags) 0.0006 (fst coord)
      == fst coord + steps (hits flags) 0.0006 /\
      moved (hits flags) 0.0006 (snd coord)
      == snd coord + steps (hits flags) 0.0006) /\
  (existing = [] ->
   jitter_if_close haversine coord existing min_dist_m = Ok coord) /\
  ((forall e, In e existing ->
              exists d,
                haversine (fst coord) (snd coord) (fst e) (snd e) = Ok d /\
                min_dist_m / 1000 <= d) ->
   jitter_if_close haversine coord existing min_dist_m = Ok coord).
Proof.
  destruct coord as [la lo]. split; [|split; [|split]].
  - intro res. split.
    + intro H. apply jitter_loop_trace in H as (flags & L & T & ->).
      exists flags. split; [exact L|]. split; [exact T | reflexivity].
    + intros (flags & L & T & ->).
      apply jitter_loop_of_trace; assumption.
  - intros flags L. rewrite <- L.
    split; [apply hits_le|]. split; apply moved_steps.
  - intros ->. reflexivity.
  - intro H. apply PlacementFacts.jitter_loop_far, H.
Qed.

(** X14. The marker loop of [build_map] gives one position for each
    entry, in order. The entry at index [i] is tested against the [i]
    positions placed before it, in order and each time from where the
    earlier tests have led, and is moved 0.0015 degrees north and 0.0025
    degrees east each time the distance is below 0.4 km. The loop finishes
    exactly when every one of these distances is computed, and the
    position of each entry is then its coordinates moved once for every
    test that came out true, at most [i] times. When every entry is at
    least 0.4 km from every earlier one, every marker is at its entry's
    coordinates. *)
Theorem marker_positions (haversine : Q -> Q -> Q -> Q -> result Q)
    (data : list entry) :
  (forall placed,
      place_markers haversine data = Ok placed <->
      List.length placed = List.length data /\
      forall i r,
        nth_error data i = Some r ->
        exists flags,
          List.length flags = i /\
          (forall j p,
              (j < i)%nat -> nth_error placed j = Some p ->
              exists d,
                haversine (moved (hits (firstn j flags)) 0.0015 (lat r))
                          (moved (hits (firstn j flags)) 0.0025 (lon r))
                          (fst p) (snd p) = Ok d /\
                nth_error flags j = Some (PyNum.ltb d 0.4)) /\
          nth_error placed i
          = Some (moved (hits flags) 0.0015 (lat r),
                  moved (hits flags) 0.0025 (lon r))) /\
  (forall flags step x,
      (hits flags <= List.length flags)%nat /\
      moved (hits flags) step x == x + steps (hits flags) step) /\
  (ForallOrdPairs
     (fun earlier later =>
        exists d, haversine (lat later) (lon later) (lat earlier) (lon earlier)
                  = Ok d /\ 0.4 <= d)
     data ->
   place_markers haversine data = Ok (map coords data)).
Proof.
  split; [|split].
  - intro placed. split.
    + intro H. apply place_loop_nudges in H as (ps & -> & L & Hps).
      simpl in *. split; [exact L|]. intros i r Hr.
      destruct (Hps i r Hr) as (pos & Hpos & Hn).
      apply nudge_trace in Hn as (flags & Lf & T & ->).
      assert (i < List.length ps)%nat as Hi.
      { apply nth_error_Some. congruence. }
      rewrite firstn_length_le in Lf by lia.
      exists flags. split; [exact Lf|]. split; [|exact Hpos].
      intros j p Hj Hp. apply T. rewrite nth_error_firstn.
      apply Nat.ltb_lt in Hj. now rewrite Hj.
    + intros [L H]. unfold place_markers.
      change placed with ([] ++ placed)%list.
      apply place_loop_of_nudges; [exact L|].
      intros i r Hr. destruct (H i r Hr) as (flags & Lf & T & Hpos).
      eexists. split; [exact Hpos|]. simpl.
      assert (i < List.length placed)%nat as Hi.
      { apply nth_error_Some. congruence. }
      apply nudge_of_trace.
      * rewrite firstn_length_le by lia. exact Lf.
      * intros j p Hp. rewrite nth_error_firstn in Hp.
        destruct (Nat.ltb j i) eqn:Hj; [|discriminate].
        apply Nat.ltb_lt in Hj. now apply T.
  - intros flags step x. split; [apply hits_le | apply moved_steps].
  - intro H. unfold place_markers.
    rewrite (PlacementFacts.place_loop_far haversine data []);
      [reflexivity | | exact H].
    intros r p _ [].
Qed.

(** ** The updater *)

Module UpdaterFacts.

(** One iteration, in full. *)
Lemma tick_run fos W D s :
  exists data teesta io1 io2,
    gather_bubble_data fos W (io s) = (Ok data, io1) /\
    fetch_teesta_level fos W io1 = (Ok teesta, io2) /\
    tick fos W D s
    = (Ok tt,
       AppState (State (requests io2) (S (clock_reads io2)))
                (events s
                 ++ tick_events D (List.length (events s)) data
                      (minute_stamp D (clock_reads io2)) teesta)).
Proof.
  assert (exists data io1,
             gather_bubble_data fos W (io s) = (Ok data, io1))
    as (data & io1 & G).
  { destruct (gather_outcomes fos W BUBBLES (io s)) as [io1 G]. eauto. }
  destruct (probe_outcome fos W io1) as (teesta & io2 & P & _).
  exists data, teesta, io1, io2. split; [exact G|]. split; [exact P|].
  unfold tick, refresh, app_try, run_io, now_minute, build_map, load_url,
    sleep, tick_events.
  unfold app_bind at 1 2. unfold app_bind at 1. rewrite G. simpl.
  unfold app_bind at 1. rewrite P. simpl.
  unfold app_bind, app_ret. simpl.
  destruct (build_map_outcome D _ _ _ _) as [[] | x]; simpl.
  - destruct (load_url_outcome D _ _) as [[] | y]; simpl;
      now rewrite <- !app_assoc.
  - now rewrite <- !app_assoc.
Qed.

(** One iteration, counted: one call of [build_map], at most one of
    [window.load_url], one sleep; 15 to 30 requests; at most 15 readings
    of the clock. *)
Lemma tick_counts fos W D s :
  exists evs io',
    tick fos W D s = (Ok tt, AppState io' (events s ++ evs)) /\
    filter is_sleep evs = [Sleep REFRESH_SECONDS] /\
    List.length (filter is_build_map evs) = 1%nat /\
    (List.length (filter is_load_url evs) <= 1)%nat /\
    (List.length (requests (io s)) + 15 <= List.length (requests io')
     <= List.length (requests (io s)) + 30)%nat /\
    (clock_reads io' <= clock_reads (io s) + 15)%nat.
Proof.
  destruct (tick_run fos W D s) as (data & teesta & io1 & io2 & G & P & T).
  eexists _, _. split; [exact T|].
  assert (List.length (requests (io s)) + 14 <= List.length (requests io1)
          <= List.length (requests (io s)) + 28 /\
          clock_reads io1 <= clock_reads (io s) + 14)%nat as [Hr1 Hc1].
  { destruct (gather_loop_requests fos W BUBBLES [] (io s))
      as (es & st' & G' & L & Q & C).
    unfold gather_bubble_data, gather_bubble_data_over in G.
    rewrite G in G'. inversion G'. subst st'.
    pose proof (made_length BUBBLES es L) as M.
    rewrite Q, length_app. change (List.length BUBBLES) with 14%nat in *.
    lia. }
  assert (List.length (requests io1) + 1 <= List.length (requests io2)
          <= List.length (requests io1) + 2 /\
          clock_reads io2 = clock_reads io1)%nat as [Hr2 Hc2].
  { destruct (probe_outcome fos W io1) as (rd & st' & P' & H).
    rewrite P in P'. inversion P'. subst st' rd.
    destruct H as [(v & _ & _ & ->) | (_ & ->)]; simpl;
      rewrite !length_app; simpl; lia. }
  unfold tick_events. simpl.
  destruct (build_map_outcome D _ _ _ _); simpl;
    repeat split; try reflexivity; lia.
Qed.

End UpdaterFacts.

Import UpdaterFacts.

(** X15. One iteration of the updater never raises and always ends in a
    sleep of 180 seconds. Since neither the gathering nor the probe can
    raise, it always calls [build_map], with the data (one entry for each
    configured point) and the river reading gathered in this same
    iteration; it calls [window.load_url], on the file [OUT_HTML], exactly
    when [build_map] returned. *)
Theorem tick_always_builds_and_sleeps
    (fos : string -> option Q) (W : World) (D : Desktop) (s : app_state) :
  exists data teesta io1 io2,
    gather_bubble_data fos W (io s) = (Ok data, io1) /\
    fetch_teesta_level fos W io1 = (Ok teesta, io2) /\
    List.length data = List.length BUBBLES /\
    let ts := minute_stamp D (clock_reads io2) in
    tick fos W D s
    = (Ok tt,
       AppState (State (requests io2) (S (clock_reads io2)))
                (events s
                 ++ BuildMap data ts teesta
                 :: match build_map_outcome D (List.length (events s))
                            data ts teesta with
                    | Ok _ => [LoadUrl ("file://" ++ OUT_HTML D)]
                    | Err _ => []
                    end
                 ++ [Sleep 180])).
Proof.
  destruct (tick_run fos W D s) as (data & teesta & io1 & io2 & G & P & T).
  exists data, teesta, io1, io2. split; [exact G|]. split; [exact P|].
  split; [|exact T].
  destruct (gather_loop_requests fos W BUBBLES [] (io s))
    as (es & st' & G' & L & _).
  unfold gather_bubble_data, gather_bubble_data_over in G.
  rewrite G in G'. now inversion G'.
Qed.

(** X16. The first [n] iterations of [updater_loop] all complete: no
    exception of an iteration stops the loop. They sleep [n] times, 180
    seconds each time, call [build_map] [n] times and [window.load_url] at
    most [n] times, make between [15 n] and [30 n] requests and read the
    clock at most [15 n] times. *)
Theorem updater_loop_never_stops
    (fos : string -> option Q) (W : World) (D : Desktop)
    (n : nat) :
  forall s : app_state,
  exists evs io',
    updater_loop fos W D n s = (Ok tt, AppState io' (events s ++ evs)) /\
    filter is_sleep evs = repeat (Sleep 180) n /\
    List.length (filter is_build_map evs) = n /\
    (List.length (filter is_load_url evs) <= n)%nat /\
    (List.length (requests (io s)) + 15 * n <= List.length (requests io')
     <= List.length (requests (io s)) + 30 * n)%nat /\
    (clock_reads io' <= clock_reads (io s) + 15 * n)%nat.
Proof.
  induction n as [|n IH]; intro s.
  - exists [], (io s). simpl. unfold app_ret. rewrite app_nil_r.
    destruct s. simpl. repeat split; try reflexivity; lia.
  - destruct (tick_counts fos W D s)
      as (evs1 & io1 & T & S1 & B1 & L1 & R1 & C1).
    destruct (IH (AppState io1 (events s ++ evs1)))
      as (evs2 & io2 & U & S2 & B2 & L2 & R2 & C2).
    simpl in U, R2, C2.
    exists (evs1 ++ evs2)%list, io2. simpl. unfold app_bind.
    rewrite T, U, <- app_assoc, !filter_app, !length_app, S1, S2.
    split; [reflexivity|]. split; [reflexivity|]. lia.
Qed.

(** ** Air quality and isolation *)

Module AirQualityFacts.

(** Where the air-quality values of an entry come from. *)
Lemma air_quality_source fos W la lo key st x y st' :
  air_quality fos W la lo key st = (Ok (x, y), st') ->
  exists aq ah times i a b,
    fetch_open_meteo_aq W la lo st = (Ok aq, st') /\
    Json.getitem_key aq "hourly" = Ok ah /\
    Json.getitem_key ah "time" = Ok times /\
    Json.index times key = Ok i /\
    series_at fos ah "pm2_5" i = Ok a /\
    series_at fos ah "pm10" i = Ok b /\
    x = Some a /\ y = Some b.
Proof.
  unfold air_quality. intro H.
  step_bind H. rename a into aq, Hc into Haq.
  step_bind H. apply lift_ok in Hc as [Hah ->]. rename a into ah.
  step_bind H. apply lift_ok in Hc as [Hidx ->]. rename a into i.
  step_bind H. apply lift_ok in Hc as [Ha ->].
  step_bind H. apply lift_ok in Hc as [Hb ->].
  apply ret_ok in H as [H ->]. inversion H. subst.
  destruct (Json.getitem_key ah "time") as [times | err] eqn:Ht;
    [|discriminate].
  simpl in Hidx.
  exists aq, ah, times, i, a, a0. auto 10.
Qed.

End AirQualityFacts.

Import AirQualityFacts.

(** X17. The PM2.5 and PM10 values of an entry, when present, are the
    numbers of the air-quality answer at the first position of the current
    hour on its time axis, the hour key being the one read for the weather
    series; there is no fallback to another position. *)
Theorem pm_values_come_from_current_hour
    (fos : string -> option Q) (W : World) (n : string) (la lo : Q)
    (st st' : state) (e : entry) (a : Q) :
  process_point fos W n la lo st = (Ok e, st') ->
  pm25 e = Some a ->
  exists aq ah times i b,
    fetch_open_meteo_aq W la lo
      (State (requests st ++ [weather_request la lo]) (S (clock_reads st)))
    = (Ok aq, st') /\
    Json.getitem_key aq "hourly" = Ok ah /\
    Json.getitem_key ah "time" = Ok times /\
    Json.index times (clock W (clock_reads st)) = Ok i /\
    series_at fos ah "pm2_5" i = Ok a /\
    series_at fos ah "pm10" i = Ok b /\
    pm10 e = Some b.
Proof.
  unfold process_point. intros H Hpm.
  step_bind H. pose proof (fetch_weather_state W la lo st) as Hw.
  rewrite Hc in Hw. simpl in Hw. subst st0.
  step_bind H. apply lift_ok in Hc0 as [_ ->].
  step_bind H. unfold now_hour_key in Hc0. inversion Hc0. subst a2 st0.
  do 6 (step_bind H;
        match goal with
        | Hl : lift _ _ = _ |- _ => apply lift_ok in Hl as [_ ->]
        end).
  step_bind H.
  match goal with
  | Ht : try_except _ _ _ = (Ok ?pm, _) |- _ =>
      rename Ht into Htry; destruct pm as [p25 p10]
  end.
  step_bind H.
  match goal with
  | Hl : lift _ _ = (Ok ?sl, _) |- _ =>
      apply lift_ok in Hl as [_ ->]; destruct sl as [score label]
  end.
  apply ret_ok in H as [-> ->]. simpl in Hpm. subst p25.
  unfold try_except in Htry.
  destruct (air_quality _ _ _ _ _ _) as [[[x y] | err] sta] eqn:A.
  - inversion Htry. subst.
    apply air_quality_source in A
      as (aq & ah & times & i & a' & b & F & Hah & Ht & Hi & Ha & Hb & E1 & E2).
    inversion E1. subst. simpl in *.
    exists aq, ah, times, i, b. auto 10.
  - unfold ret in Htry. inversion Htry.
Qed.

Lemma pm_values_come_from_current_hour_example :
  exists st' aq ah times i b,
    fetch_open_meteo_aq SampleMore.world_all_up 27.0161 88.2536
      (State [weather_request 27.0161 88.2536] 1)
    = (Ok aq, st') /\
    Json.getitem_key aq "hourly" = Ok ah /\
    Json.getitem_key ah "time" = Ok times /\
    Json.index times "2025-07-01T04:00" = Ok i /\
    series_at Sample.float_of_str ah "pm2_5" i = Ok 12.1 /\
    series_at Sample.float_of_str ah "pm10" i = Ok b /\
    b = 24.
Proof.
  eexists.
  destruct (pm_values_come_from_current_hour
              Sample.float_of_str SampleMore.world_all_up
              "Lebong" 27.0161 88.2536 initial_state _ _ 12.1
              ltac:(vm_compute; reflexivity) eq_refl)
    as (aq & ah & times & i & b & F & Hah & Ht & Hi & Ha & Hb & Hpm).
  exists aq, ah, times, i, b.
  repeat (split; [eassumption|]). simpl in Hpm. now inversion Hpm.
Defined.

(** X18. Whatever fails and however often, [gather_bubble_data] returns
    one entry for each point of the registry, in registry order. The entry
    at index [i] is decided by processing point [i] in the state the loop
    has reached after the [i] points before it, the state in which the
    loop over those points alone stops: it is the entry that processing
    built when it returns, the placeholder with the error text when it
    raises. The entries before it are those of the loop over the first
    [i] points alone: nothing that happens at a point changes an entry
    already gathered. An empty registry gives an empty list. *)
Theorem every_failure_is_isolated
    (fos : string -> option Q) (W : World)
    (registry : list (string * Q * Q)) (st : state) :
  exists results st',
    gather_bubble_data_over fos W registry st = (Ok results, st') /\
    results = map (fun pr => entry_of_outcome (fst pr) (snd pr))
                  (combine registry (point_outcomes fos W registry st)) /\
    List.length results = List.length registry /\
    map point_of results = registry /\
    (registry = [] -> results = []) /\
    forall i name lat lon,
      nth_error registry i = Some (name, lat, lon) ->
      exists st_i,
        gather_bubble_data_over fos W (firstn i registry) st
        = (Ok (firstn i results), st_i) /\
        nth_error (point_outcomes fos W registry st) i
        = Some (fst (process_point fos W name lat lon st_i)) /\
        ((exists e st1,
             process_point fos W name lat lon st_i = (Ok e, st1) /\
             nth_error results i = Some e /\ error e = None) \/
         (exists x st1,
             process_point fos W name lat lon st_i = (Err x, st1) /\
             nth_error results i
             = Some (placeholder name lat lon (str_exn x)))).
Proof.
  destruct (gather_outcomes fos W registry st) as [st' E].
  eexists _, st'. split; [exact E|].
  split; [reflexivity|].
  split.
  { rewrite length_map, length_combine, point_outcomes_length.
    apply Nat.min_id. }
  split; [apply entries_points|].
  split; [intros ->; reflexivity|].
  intros i n la lo Hp.
  destruct (gather_loop_prefix fos W registry [] st i n la lo Hp)
    as (st_i & Hpre & Hout).
  exists st_i. split; [exact Hpre|]. split; [exact Hout|].
  rewrite nth_entry, Hp, Hout.
  destruct (process_point fos W n la lo st_i) as [[e | x] st1] eqn:Hrun;
    simpl; [left | right].
  - exists e, st1. split; [reflexivity|]. split; [reflexivity|].
    apply process_point_ok in Hrun.
    destruct Hrun as (w & s0 & hourly & hum & pres & t & prev & Hrun).
    now destruct Hrun as (_ & _ & (_ & _ & _ & He) & _).
  - exists x, st1. split; reflexivity.
Qed.

(** X8 on two worlds that differ in the air-quality source only. *)
Lemma air_quality_cannot_fail_a_point_example :
  match
    process_point Sample.float_of_str SampleMore.world_all_up
                  "Lebong" 27.0161 88.2536 initial_state,
    process_point Sample.float_of_str SampleMore.world_aq_down
                  "Lebong" 27.0161 88.2536 initial_state
  with
  | (Ok e1, st1), (Ok e2, st2) =>
      without_air_quality e1 = without_air_quality e2 /\ st1 = st2
  | (Err x1, st1), (Err x2, st2) => x1 = x2 /\ st1 = st2
  | _, _ => False
  end.
Proof.
  apply (air_quality_cannot_fail_a_point
           Sample.float_of_str SampleMore.world_all_up SampleMore.world_aq_down
           "Lebong" 27.0161 88.2536 initial_state);
    intro k; reflexivity.
Defined.

(** X9 at an hour that is not on the time axis. *)
Lemma early_index_has_no_pressure_term_example :
  exists e st',
    process_point Sample.float_of_str SampleMore.world_stale_hour
                  "Lebong" 27.0161 88.2536 initial_state = (Ok e, st') /\
    pressure_drop_3h e = 0 /\
    compute_landslide_score (humid e) (Some 0) default_elev_m
    = Ok (landslide_score e, landslide_label e).
Proof.
  eexists _, _. split; [vm_compute; reflexivity|].
  eapply (early_index_has_no_pressure_term
            Sample.float_of_str SampleMore.world_stale_hour
            "Lebong" 27.0161 88.2536 initial_state).
  - vm_compute. reflexivity.
  - reflexivity.
  - vm_compute. lia.
  - vm_compute. reflexivity.
Defined.

(** X13 with a first listed point 0.26 km away and a second far away: the
    first test comes out true, the second, made from the moved position,
    false. *)
Lemma jitter_if_close_shift_example :
  exists flags,
    List.length flags = 2%nat /\
    (forall j e,
        nth_error [(27.0350, 88.2640); (27.1919, 88.5168)] j = Some e ->
        exists d,
          SampleMore.flat_distance
            (moved (hits (firstn j flags)) 0.0006 27.0359)
            (moved (hits (firstn j flags)) 0.0006 88.2626)
            (fst e) (snd e) = Ok d /\
          nth_error flags j = Some (PyNum.ltb d (default_min_dist_m / 1000))) /\
    (27.0359 + 0.0006, 88.2626 + 0.0006)
    = (moved (hits flags) 0.0006 27.0359, moved (hits flags) 0.0006 88.2626).
Proof.
  apply (proj1 (proj1 (jitter_if_close_shift SampleMore.flat_distance
                         (27.0359, 88.2626)
                         [(27.0350, 88.2640); (27.1919, 88.5168)]
                         default_min_dist_m)
                  (27.0359 + 0.0006, 88.2626 + 0.0006))).
  reflexivity.
Defined.

(** X14 with two entries 0.26 km apart: the second marker is moved
    once. *)
Lemma marker_positions_example :
  List.length [(27.0359, 88.2626); (27.0350 + 0.0015, 88.2640 + 0.0025)]
  = 2%nat /\
  forall i r,
    nth_error [SampleMore.at_position "Chowrasta / Mall" 27.0359 88.2626;
               SampleMore.at_position "Observatory" 27.0350 88.2640] i
    = Some r ->
    exists flags,
      List.length flags = i /\
      (forall j p,
          (j < i)%nat ->
          nth_error [(27.0359, 88.2626); (27.0350 + 0.0015, 88.2640 + 0.0025)] j
          = Some p ->
          exists d,
            SampleMore.flat_distance
              (moved (hits (firstn j flags)) 0.0015 (lat r))
              (moved (hits (firstn j flags)) 0.0025 (lon r))
              (fst p) (snd p) = Ok d /\
            nth_error flags j = Some (PyNum.ltb d 0.4)) /\
      nth_error [(27.0359, 88.2626); (27.0350 + 0.0015, 88.2640 + 0.0025)] i
      = Some (moved (hits flags) 0.0015 (lat r),
              moved (hits flags) 0.0025 (lon r)).
Proof.
  apply (proj1 (proj1 (marker_positions SampleMore.flat_distance
                  [SampleMore.at_position "Chowrasta / Mall" 27.0359 88.2626;
                   SampleMore.at_position "Observatory" 27.0350 88.2640])
                  [(27.0359, 88.2626);
                   (27.0350 + 0.0015, 88.2640 + 0.0025)])).
  reflexivity.
Defined.

(** The trace of the two tests of the example of X13. *)
Remark jitter_example_flags :
  forall flags,
    List.length flags = 2%nat ->
    (forall j e,
        nth_error [(27.0350, 88.2640); (27.1919, 88.5168)] j = Some e ->
        exists d,
          SampleMore.flat_distance
            (moved (hits (firstn j flags)) 0.0006 27.0359)
            (moved (hits (firstn j flags)) 0.0006 88.2626)
            (fst e) (snd e) = Ok d /\
          nth_error flags j = Some (PyNum.ltb d (default_min_dist_m / 1000))) ->
    flags = [true; false].
Proof.
  intros [|a [|b [|c flags]]] L T; try discriminate L.
  destruct (T 0%nat _ eq_refl) as (d0 & H0 & F0).
  simpl in H0, F0. inversion H0. subst d0. inversion F0 as [Ha].
  assert (a = true) as -> by (rewrite Ha; vm_compute; reflexivity).
  destruct (T 1%nat _ eq_refl) as (d1 & H1 & F1).
  simpl in H1, F1. inversion H1. subst d1. inversion F1 as [Hb].
  assert (b = false) as -> by (rewrite Hb; vm_compute; reflexivity).
  reflexivity.
Qed.
